(** * pyvtschooldata: the Python wrapper package of vtschooldata

    The repository holds two Python files: the package initialiser
    [pyvtschooldata/__init__.py] and the smoke tests
    [tests/test_pyvtschooldata.py].  This development embeds

    - the two files as text (module [Source]), to count their lines;
    - the two files as syntax trees of the Python fragment they use
      (module [Py]), with the package's export surface and the shape of
      the assertions of the tests;
    - the import machinery the initialiser runs through (module [Loader]):
      [sys.modules] as explicit state, module search in a file system of
      module bodies, relative [from ... import ...];
    - the submodule [core], which the initialiser imports and which is not
      among the repository's files, modelled from the specification
      (module [Core]);
    - the test functions as a test runner calls them (module [Pytest]):
      each body run over the globals of the test module, with the verdict
      it ends in. *)

From Stdlib Require Import ZArith Lia Ascii String.
From Stdlib Require Import Structures.OrderedTypeEx.
From stdpp Require Import base option list strings gmap sorting.

Local Open Scope string_scope.
Local Open Scope list_scope.
Local Open Scope nat_scope.
Set Warnings "-register-all".


(** ** The source files as text *)

Module Source.

(** The double quote and Python's docstring delimiter. *)
Definition dq : string := String (ascii_of_nat 34) EmptyString.
Definition q3 : string := dq +:+ dq +:+ dq.

(** A name in double quotes, as [__all__] lists them. *)
Definition quoted (s : string) : string := dq +:+ s +:+ dq.

(** [pyvtschooldata/__init__.py], byte for byte (357 bytes). *)
Definition init_py : string :=
  q3 +:+ "
pyvtschooldata - Python wrapper for Vermont school enrollment data.

Thin rpy2 wrapper around the vtschooldata R package.
Returns pandas DataFrames.
" +:+ q3 +:+ "

from .core import (
    fetch_enr,
    fetch_enr_multi,
    tidy_enr,
    get_available_years,
)

__version__ = " +:+ quoted "0.1.0" +:+ "
__all__ = [" +:+ quoted "fetch_enr" +:+ ", " +:+ quoted "fetch_enr_multi"
  +:+ ", " +:+ quoted "tidy_enr" +:+ ", " +:+ quoted "get_available_years"
  +:+ "]

".

(** [tests/test_pyvtschooldata.py], byte for byte (962 bytes); the file
    does not end in a newline. *)
Definition test_py : string :=
  q3 +:+ "
Tests for pyvtschooldata Python wrapper.

Minimal smoke tests - the actual data logic is tested by R testthat.
These just verify the Python wrapper imports and exposes expected functions.
" +:+ q3 +:+ "

import pytest


def test_import_package():
    " +:+ q3 +:+ "Package imports successfully." +:+ q3 +:+ "
    import pyvtschooldata
    assert pyvtschooldata is not None


def test_has_fetch_enr():
    " +:+ q3 +:+ "fetch_enr function is available." +:+ q3 +:+ "
    import pyvtschooldata
    assert hasattr(pyvtschooldata, 'fetch_enr')
    assert callable(pyvtschooldata.fetch_enr)


def test_has_get_available_years():
    " +:+ q3 +:+ "get_available_years function is available." +:+ q3 +:+ "
    import pyvtschooldata
    assert hasattr(pyvtschooldata, 'get_available_years')
    assert callable(pyvtschooldata.get_available_years)


def test_has_version():
    " +:+ q3 +:+ "Package has a version string." +:+ q3 +:+ "
    import pyvtschooldata
    assert hasattr(pyvtschooldata, '__version__')
    assert isinstance(pyvtschooldata.__version__, str)".

(** The files of the repository. *)
Definition repository : list string := [init_py; test_py].

Definition newline : ascii := ascii_of_nat 10.

(** The lines of a text, as Python's [str.splitlines] cuts them at line
    feeds: a trailing line feed ends the last line and opens no new one,
    a last line with no line feed counts as a line. *)
Fixpoint splitlines (s : string) : list string :=
  match s with
  | EmptyString => []
  | String c rest =>
      if Ascii.eqb c newline then EmptyString :: splitlines rest
      else match splitlines rest with
           | [] => [String c EmptyString]
           | l :: ls => String c l :: ls
           end
  end.

Definition count_lines (s : string) : nat := length (splitlines s).

(** The line feeds of a text: what [wc -l] counts. *)
Fixpoint count_newlines (s : string) : nat :=
  match s with
  | EmptyString => 0
  | String c rest =>
      (if Ascii.eqb c newline then 1 else 0) + count_newlines rest
  end.

(** The text ends in a line feed (or is empty). *)
Fixpoint ends_with_newline (s : string) : bool :=
  match s with
  | EmptyString => true
  | String c EmptyString => Ascii.eqb c newline
  | String _ rest => ends_with_newline rest
  end.

Definition total_lines (files : list string) : nat :=
  foldr (fun f n => count_lines f + n) 0 files.

End Source.

(** ** The source files as syntax *)

Module Py.

(** Dotted module names, by component: [pyvtschooldata.core] is
    [["pyvtschooldata"; "core"]]. *)
Definition modname : Type := list string.

(** The expressions and statements of Python that the two files use. *)
Inductive expr : Type :=
| EStr (s : string)
| ENone
| EName (x : string)
| EList (es : list expr)
| EAttr (e : expr) (a : string)
| ECall (f : expr) (args : list expr)
| EIsNot (e1 e2 : expr).

Inductive stmt : Type :=
| SExpr (e : expr)
| SImport (m : modname)
| SImportFrom (level : nat) (m : modname) (names : list string)
| SAssign (x : string) (e : expr)
| SAssert (e : expr)
| SDef (f : string) (body : list stmt).

(** *** [pyvtschooldata/__init__.py] *)

Definition init_module : list stmt :=
  [ SExpr (EStr "
pyvtschooldata - Python wrapper for Vermont school enrollment data.

Thin rpy2 wrapper around the vtschooldata R package.
Returns pandas DataFrames.
");
    SImportFrom 1 ["core"]
      ["fetch_enr"; "fetch_enr_multi"; "tidy_enr"; "get_available_years"];
    SAssign "__version__" (EStr "0.1.0");
    SAssign "__all__"
      (EList [EStr "fetch_enr"; EStr "fetch_enr_multi"; EStr "tidy_enr";
              EStr "get_available_years"]) ].

(** *** [tests/test_pyvtschooldata.py] *)

Definition pkg : expr := EName "pyvtschooldata".

Definition test_import_package : stmt :=
  SDef "test_import_package"
    [ SExpr (EStr "Package imports successfully.");
      SImport ["pyvtschooldata"];
      SAssert (EIsNot pkg ENone) ].

Definition test_has_fetch_enr : stmt :=
  SDef "test_has_fetch_enr"
    [ SExpr (EStr "fetch_enr function is available.");
      SImport ["pyvtschooldata"];
      SAssert (ECall (EName "hasattr") [pkg; EStr "fetch_enr"]);
      SAssert (ECall (EName "callable") [EAttr pkg "fetch_enr"]) ].

Definition test_has_get_available_years : stmt :=
  SDef "test_has_get_available_years"
    [ SExpr (EStr "get_available_years function is available.");
      SImport ["pyvtschooldata"];
      SAssert (ECall (EName "hasattr") [pkg; EStr "get_available_years"]);
      SAssert (ECall (EName "callable") [EAttr pkg "get_available_years"]) ].

Definition test_has_version : stmt :=
  SDef "test_has_version"
    [ SExpr (EStr "Package has a version string.");
      SImport ["pyvtschooldata"];
      SAssert (ECall (EName "hasattr") [pkg; EStr "__version__"]);
      SAssert (ECall (EName "isinstance")
                 [EAttr pkg "__version__"; EName "str"]) ].

Definition test_module : list stmt :=
  [ SExpr (EStr "
Tests for pyvtschooldata Python wrapper.

Minimal smoke tests - the actual data logic is tested by R testthat.
These just verify the Python wrapper imports and exposes expected functions.
");
    SImport ["pytest"];
    test_import_package;
    test_has_fetch_enr;
    test_has_get_available_years;
    test_has_version ].

(** *** The export surface of a module *)

(** The names a statement binds in the namespace it runs in. *)
Definition binds (s : stmt) : list string :=
  match s with
  | SExpr _ | SAssert _ => []
  | SImport m => take 1 m
  | SImportFrom _ _ names => names
  | SAssign x _ => [x]
  | SDef f _ => [f]
  end.

Definition bound_names (body : list stmt) : list string :=
  concat (map binds body).

(** The functions a module defines itself. *)
Definition defined_functions (body : list stmt) : list string :=
  omap (fun s => match s with SDef f _ => Some f | _ => None end) body.

(** The [from ... import ...] statements of a module. *)
Definition from_imports (body : list stmt)
  : list (nat * modname * list string) :=
  omap (fun s => match s with
                 | SImportFrom level m names => Some (level, m, names)
                 | _ => None
                 end) body.

(** A list display of string literals, as a list of strings. *)
Definition string_literals (e : expr) : option (list string) :=
  match e with
  | EList es =>
      mapM (fun e => match e with EStr s => Some s | _ => None end) es
  | _ => None
  end.

(** The value of [__all__]: the last assignment to it wins. *)
Definition dunder_all (body : list stmt) : option (list string) :=
  foldl (fun acc s => match s with
                      | SAssign "__all__" e => string_literals e
                      | _ => acc
                      end) None body.

Definition starts_with_underscore (x : string) : bool :=
  match x with
  | String c _ => Ascii.eqb c "_"%char
  | EmptyString => false
  end.

(** The public names of a module, as [from m import *] reads them:
    [__all__] where the module sets it, otherwise the bound names with
    no leading underscore. *)
Definition public_names (body : list stmt) : list string :=
  match dunder_all body with
  | Some names => names
  | None => filter (fun x => starts_with_underscore x = false)
                   (bound_names body)
  end.

(** *** The shape of the tests *)

(** The test functions of a module: pytest collects the functions whose
    name starts with [test]. *)
Definition test_functions (body : list stmt)
  : list (string * list stmt) :=
  omap (fun s => match s with
                 | SDef f b =>
                     if String.prefix "test" f then Some (f, b) else None
                 | _ => None
                 end) body.

(** What a structural assertion checks about module [m]. *)
Inductive check : Type :=
| Imported (m : string)               (* assert m is not None *)
| HasAttr (m a : string)              (* assert hasattr(m, 'a') *)
| Callable (m a : string)             (* assert callable(m.a) *)
| IsStr (m a : string).               (* assert isinstance(m.a, str) *)

Definition classify (e : expr) : option check :=
  match e with
  | EIsNot (EName m) ENone => Some (Imported m)
  | ECall (EName f) [EName m; EStr a] =>
      if String.eqb f "hasattr" then Some (HasAttr m a) else None
  | ECall (EName f) [EAttr (EName m) a] =>
      if String.eqb f "callable" then Some (Callable m a) else None
  | ECall (EName f) [EAttr (EName m) a; EName t] =>
      if String.eqb f "isinstance" && String.eqb t "str"
      then Some (IsStr m a) else None
  | _ => None
  end.

(** The checks of a test body: a docstring, imports of the package
    itself and structural assertions; [None] for a body with any other
    statement. *)
Definition stmt_checks (s : stmt) : option (list check) :=
  match s with
  | SExpr (EStr _) => Some []
  | SImport ["pyvtschooldata"] => Some []
  | SAssert e => c ← classify e; Some [c]
  | _ => None
  end.

Definition body_checks (body : list stmt) : option (list check) :=
  cs ← mapM stmt_checks body; Some (concat cs).

(** The callee of every call in an expression or a statement. *)
Fixpoint callees (e : expr) : list expr :=
  match e with
  | EStr _ | ENone | EName _ => []
  | EList es => flat_map callees es
  | EAttr e _ => callees e
  | ECall f args => f :: callees f ++ flat_map callees args
  | EIsNot e1 e2 => callees e1 ++ callees e2
  end.

Fixpoint stmt_callees (s : stmt) : list expr :=
  match s with
  | SExpr e | SAssign _ e | SAssert e => callees e
  | SImport _ | SImportFrom _ _ _ => []
  | SDef _ body => flat_map stmt_callees body
  end.

(** The builtins that inspect an object without running it. *)
Definition is_inspection (f : expr) : bool :=
  match f with
  | EName x =>
      bool_decide (x ∈ ["hasattr"; "callable"; "isinstance"])
  | _ => false
  end.

(** The inbound call surface the package is to expose. *)
Definition call_surface : list string :=
  ["fetch_enr"; "fetch_enr_multi"; "tidy_enr"; "get_available_years"].

(** What each test function of the suite checks. *)
Definition structural_checks : list (string * option (list check)) :=
  [ ("test_import_package", Some [Imported "pyvtschooldata"]);
    ("test_has_fetch_enr",
      Some [HasAttr "pyvtschooldata" "fetch_enr";
            Callable "pyvtschooldata" "fetch_enr"]);
    ("test_has_get_available_years",
      Some [HasAttr "pyvtschooldata" "get_available_years";
            Callable "pyvtschooldata" "get_available_years"]);
    ("test_has_version",
      Some [HasAttr "pyvtschooldata" "__version__";
            IsStr "pyvtschooldata" "__version__"]) ].

End Py.

(** ** Importing a module *)

(** The import machinery of Python, for the statements of [Py.stmt]:
    [sys.modules] is explicit state, a module is searched by its dotted
    name in a file system of module bodies, its body runs in its own
    namespace, and a module whose body raises is removed again.  The
    attributes the import system sets on a module object ([__name__],
    [__doc__], [__path__], ...) are left out. *)

Module Loader.
Import Py.

Inductive value : Type :=
| VNone
| VStr (s : string)
| VList (vs : list value)
| VFunc (m : list string) (f : string)
| VModule (m : list string)
| VBuiltin (x : string).

(** [ModuleNotFoundError] is a subclass of [ImportError]: the failures
    of an import are the cases of one exception. *)
Inductive import_failure : Type :=
| ModuleNotFound (m : list string)
| CannotImportName (x : string) (m : list string)
| BeyondTopLevel.

Inductive exn : Type :=
| ImportError (why : import_failure)
| NameError (x : string)
| AssertionError
| Unsupported.

(** A traceback: the statements under way, by module and by position in
    the module's body (from 0), outermost first. *)
Abbreviation traceback := (list (list string * nat)).

Inductive outcome : Type :=
| Done
| Raised (e : exn) (tb : traceback)
| OutOfFuel.

Record module_file : Type :=
  { is_package : bool; body : list stmt }.

Abbreviation FS := (gmap (list string) module_file).
Abbreviation namespace := (gmap string value).
Abbreviation modules := (gmap (list string) namespace).

Definition getattr (σ : modules) (m : list string) (a : string)
  : option value :=
  ns ← σ !! m; ns !! a.

Definition setattr (m : list string) (a : string) (v : value)
    (σ : modules) : modules :=
  alter (insert a v) m σ.

Definition builtins : list string :=
  ["hasattr"; "callable"; "isinstance"; "str"].

(** Names are looked up in the module's namespace, then in the
    builtins.  Attribute access, calls and identity tests appear in test
    functions only, whose bodies no import runs. *)
Fixpoint eval (σ : modules) (self : list string) (e : expr)
  : value + exn :=
  match e with
  | EStr s => inl (VStr s)
  | ENone => inl VNone
  | EName x =>
      match getattr σ self x with
      | Some v => inl v
      | None => if bool_decide (x ∈ builtins) then inl (VBuiltin x)
                else inr (NameError x)
      end
  | EList es =>
      let fix eval_all (es : list expr) : list value + exn :=
        match es with
        | [] => inl []
        | e :: es' =>
            match eval σ self e with
            | inl v => match eval_all es' with
                       | inl vs => inl (v :: vs)
                       | inr x => inr x
                       end
            | inr x => inr x
            end
        end in
      match eval_all es with
      | inl vs => inl (VList vs)
      | inr x => inr x
      end
  | EAttr _ _ | ECall _ _ | EIsNot _ _ => inr Unsupported
  end.

Definition truthy (v : value) : bool :=
  match v with
  | VNone | VStr EmptyString | VList [] => false
  | _ => true
  end.

Definition parent (m : list string) : option (list string) :=
  match m with
  | [] | [_] => None
  | _ => Some (removelast m)
  end.

Definition is_pkg (fs : FS) (m : list string) : bool :=
  match fs !! m with
  | Some f => is_package f
  | None => false
  end.

(** The package a module's relative imports start from: a package
    itself, the parent of a plain module. *)
Definition package_of (fs : FS) (self : list string) : list string :=
  if is_pkg fs self then self else removelast self.

(** The absolute name [from (level dots) m import ...] refers to. *)
Definition resolve (fs : FS) (self : list string) (level : nat)
    (m : list string) : option (list string) :=
  match level with
  | 0 => Some m
  | S up =>
      let p := package_of fs self in
      if decide (level ≤ length p)
      then Some (take (length p - up) p ++ m)
      else None
  end.

Section exec.
(** The import of a module by its absolute name. *)
Variable import_ : list string → modules → outcome * modules.
Variable fs : FS.

(** [from package import x]: a name the package does not have yet is
    tried as a submodule; that the submodule does not exist is no
    error at this point. *)
Fixpoint handle_fromlist (target : list string) (names : list string)
    (σ : modules) : outcome * modules :=
  match names with
  | [] => (Done, σ)
  | x :: rest =>
      match getattr σ target x with
      | Some _ => handle_fromlist target rest σ
      | None =>
          match import_ (target ++ [x]) σ with
          | (Done, σ') => handle_fromlist target rest σ'
          | (Raised (ImportError (ModuleNotFound m)) tb, σ') =>
              if decide (m = target ++ [x])
              then handle_fromlist target rest σ'
              else (Raised (ImportError (ModuleNotFound m)) tb, σ')
          | r => r
          end
      end
  end.

(** Each imported name is read off the module, or, when the module has
    no such attribute, off [sys.modules] under the module's name followed
    by the name; it is bound in the importing namespace, in order. *)
Fixpoint import_from (self target : list string)
    (names : list string) (σ : modules) : outcome * modules :=
  match names with
  | [] => (Done, σ)
  | x :: rest =>
      match getattr σ target x with
      | Some v => import_from self target rest (setattr self x v σ)
      | None =>
          match σ !! (target ++ [x]) with
          | Some _ =>
              import_from self target rest
                (setattr self x (VModule (target ++ [x])) σ)
          | None =>
              (Raised (ImportError (CannotImportName x target)) [], σ)
          end
      end
  end.

Definition exec_stmt (self : list string) (s : stmt) (σ : modules)
  : outcome * modules :=
  match s with
  | SExpr e =>
      match eval σ self e with
      | inl _ => (Done, σ)
      | inr x => (Raised x [], σ)
      end
  | SAssign x e =>
      match eval σ self e with
      | inl v => (Done, setattr self x v σ)
      | inr x => (Raised x [], σ)
      end
  | SAssert e =>
      match eval σ self e with
      | inl v => if truthy v then (Done, σ)
                 else (Raised AssertionError [], σ)
      | inr x => (Raised x [], σ)
      end
  | SDef f _ => (Done, setattr self f (VFunc self f) σ)
  | SImport m =>
      match import_ m σ with
      | (Done, σ') =>
          (Done, match m with
                 | top :: _ => setattr self top (VModule [top]) σ'
                 | [] => σ'
                 end)
      | r => r
      end
  | SImportFrom level m names =>
      match resolve fs self level m with
      | None => (Raised (ImportError BeyondTopLevel) [], σ)
      | Some target =>
          match import_ target σ with
          | (Done, σ1) =>
              match (if is_pkg fs target
                     then handle_fromlist target names σ1
                     else (Done, σ1)) with
              | (Done, σ2) => import_from self target names σ2
              | r => r
              end
          | r => r
          end
      end
  end.

(** The statements of a body in order, from position [i]; an
    exception leaves with the position of its statement on top of its
    traceback. *)
Fixpoint exec_body (self : list string) (i : nat) (body : list stmt)
    (σ : modules) : outcome * modules :=
  match body with
  | [] => (Done, σ)
  | s :: rest =>
      match exec_stmt self s σ with
      | (Done, σ') => exec_body self (S i) rest σ'
      | (Raised e tb, σ') => (Raised e ((self, i) :: tb), σ')
      | (OutOfFuel, σ') => (OutOfFuel, σ')
      end
  end.
End exec.

(** A loaded module becomes an attribute of its parent package. *)
Definition bind_child (name : list string) (σ : modules) : modules :=
  match parent name, last name with
  | Some p, Some x => setattr p x (VModule name) σ
  | _, _ => σ
  end.

(** [import name]: a module in [sys.modules] is not loaded again;
    otherwise the parent package is imported first, the module is
    searched, entered in [sys.modules] and its body run.  [fuel] bounds
    the depth of imports under way. *)
Fixpoint import_module (fuel : nat) (fs : FS) (name : list string)
    (σ : modules) {struct fuel} : outcome * modules :=
  match σ !! name with
  | Some _ => (Done, σ)
  | None =>
      match fuel with
      | 0 => (OutOfFuel, σ)
      | S k =>
          match (match parent name with
                 | Some p => import_module k fs p σ
                 | None => (Done, σ)
                 end) with
          | (Done, σ1) =>
              match σ1 !! name with
              | Some _ => (Done, σ1)
              | None =>
                  if match parent name with
                     | Some p => negb (is_pkg fs p)
                     | None => false
                     end
                  then (Raised (ImportError (ModuleNotFound name)) [], σ1)
                  else
                    match fs !! name with
                    | None =>
                        (Raised (ImportError (ModuleNotFound name)) [], σ1)
                    | Some f =>
                        match exec_body (import_module k fs) fs name 0
                                (body f) (<[name := ∅]> σ1) with
                        | (Done, σ2) => (Done, bind_child name σ2)
                        | (r, σ2) => (r, delete name σ2)
                        end
                    end
              end
          | r => r
          end
      end
  end.

(** *** The repository as a file system *)

Definition pyvtschooldata : list string := ["pyvtschooldata"].
Definition core : list string := ["pyvtschooldata"; "core"].

Definition init_file : module_file :=
  {| is_package := true; body := init_module |}.

(** The two files of the repository: the package and the test module. *)
Definition repository_fs : FS :=
  {[ pyvtschooldata := init_file;
     ["test_pyvtschooldata"] :=
       {| is_package := false; body := test_module |} ]}.

(** The names the initialiser imports from [core]. *)
Definition core_names : list string :=
  ["fetch_enr"; "fetch_enr_multi"; "tidy_enr"; "get_available_years"].

(** A [core] that defines the four functions, with empty bodies. *)
Definition stub_core : module_file :=
  {| is_package := false;
     body := [ SDef "fetch_enr" []; SDef "fetch_enr_multi" [];
               SDef "tidy_enr" []; SDef "get_available_years" [] ] |}.

Definition stub_fs : FS := <[core := stub_core]> repository_fs.

(** Every submodule of [c] that [sys.modules] holds is an attribute of
    [c], but for the modules that are [loading]. *)
Definition submodules_bound (c : list string)
    (loading : list string -> Prop) (σ : modules) : Prop :=
  forall x : string,
    is_Some (σ !! (c ++ [x])) ->
    loading (c ++ [x]) \/ is_Some (getattr σ c x).

End Loader.

(** ** The submodule [core] *)

(** Modelled from the spec: the submodule [pyvtschooldata.core], which
    [__init__.py] imports [fetch_enr], [fetch_enr_multi], [tidy_enr] and
    [get_available_years] from and which is not among the repository's
    files.  The definitions follow the component design of the
    specification: the source adapter (4.1), the tidy transformer (4.2),
    the multi-year aggregator (4.3) and the year enumerator (4.4), over
    the data model of section 3 and the errors of section 7.  The external
    provider is part of the state the calls run in. *)

Module Core.
Local Open Scope Z_scope.

(** *** Data model *)

Record EnrollmentRecord : Type :=
  { year : Z; school : string; grade : string; category : string;
    count : Z }.

Inductive error : Type :=
| DataUnavailableError      (* the requested year is not published *)
| ProviderError             (* the provider call failed *)
| SchemaError               (* a raw count is no non-negative integer *)
| NoDataError.              (* no requested year could be used *)

Inductive result (A : Type) : Type :=
| Ok (a : A)
| Err (e : error).
Arguments Ok {A} a.
Arguments Err {A} e.

(** A raw count as the provider sends it. *)
Inductive cell : Type :=
| Null
| Number (z : Z)
| Other (s : string).

(** A raw row is wide: one count per demographic column. *)
Record raw_row : Type :=
  { raw_year : Z; raw_school : string; raw_grade : string;
    raw_counts : list (string * cell) }.

Record FetchResult : Type :=
  { records : list EnrollmentRecord;
    retrieved : list Z;
    failed : list (Z * error) }.

(** *** Tidy transformer *)

(** One long row per demographic column of a raw row. *)
Definition pivot (r : raw_row) : list (raw_row * string * cell) :=
  (fun cc : string * cell => (r, cc.1, cc.2)) <$> raw_counts r.

Definition is_null (c : cell) : bool :=
  match c with Null => true | _ => false end.

Definition coerce (c : cell) : option Z :=
  match c with
  | Number z => if decide (0 ≤ z) then Some z else None
  | Null | Other _ => None
  end.

Definition to_record (x : raw_row * string * cell)
  : option EnrollmentRecord :=
  n ← coerce x.2;
  Some {| year := raw_year x.1.1; school := raw_school x.1.1;
          grade := raw_grade x.1.1; category := x.1.2; count := n |}.

(** The order of the result: by school, then grade, then category;
    strings compare as Python compares them, character by character. *)
Definition key_compare (a b : EnrollmentRecord) : comparison :=
  match String.compare (school a) (school b) with
  | Eq => match String.compare (grade a) (grade b) with
          | Eq => String.compare (category a) (category b)
          | c => c
          end
  | c => c
  end.

Definition key_le (a b : EnrollmentRecord) : Prop :=
  key_compare a b ≠ Gt.

#[global] Instance key_le_dec : RelDecision key_le.
Proof.
  intros a b. unfold key_le.
  destruct (key_compare a b); [left | left | right]; congruence.
Defined.

(** Modelled from the spec: [tidy_enr] of the missing [core.py], after
    section 4.2: pivot the wide columns, drop the rows with a null count,
    coerce each count to a non-negative integer ([SchemaError] when one
    does not coerce), order by school, grade, category. *)
Definition tidy_enr (raw : list raw_row)
  : result (list EnrollmentRecord) :=
  let long := raw ≫= pivot in
  let kept := filter (fun x => is_null x.2 = false) long in
  match mapM to_record kept with
  | Some recs => Ok (merge_sort key_le recs)
  | None => Err SchemaError
  end.

Section provider.
(** The dataset variants: a fixed set the specification does not
    enumerate. *)
Context {variant : Type}.

(** *** The provider and the state of a call *)

Inductive response : Type :=
| Published (rows : list raw_row)
| NotPublished
| Failed.

(** The provider answers two questions: which years it publishes (or
    [None] when the catalogue cannot be retrieved), and the table of a
    year and variant. *)
Record Provider : Type :=
  { catalog : option (list Z);
    table : Z → variant → response }.

Inductive request : Type :=
| ListYears
| GetTable (y : Z) (v : variant).

(** The world a call runs in: the provider as it is now, and the
    requests sent to it so far. *)
Record World : Type :=
  { provider : Provider; sent : list request }.

Definition send (q : request) (w : World) : World :=
  {| provider := provider w; sent := sent w ++ [q] |}.

(** *** Source adapter *)

(** Modelled from the spec: the adapter of the missing [core.py], after
    section 4.1: one request to the provider, its rows passed through,
    [DataUnavailableError] for a year with no data, [ProviderError] for
    a call that fails, no retry. *)
Definition fetch_raw (y : Z) (v : variant) (w : World)
  : result (list raw_row) * World :=
  (match table (provider w) y v with
   | Published rows => Ok rows
   | NotPublished => Err DataUnavailableError
   | Failed => Err ProviderError
   end, send (GetTable y v) w).

(** Modelled from the spec: [fetch_enr(year, variant)] of the missing
    [core.py]: the adapter, then the transformer (sections 2 and 8). *)
Definition fetch_enr (y : Z) (v : variant) (w : World)
  : result (list EnrollmentRecord) * World :=
  match fetch_raw y v w with
  | (Ok raw, w') => (tidy_enr raw, w')
  | (Err e, w') => (Err e, w')
  end.

(** *** Year enumerator *)

(** The ordered set of the years the provider lists. *)
Definition ordered_set (ys : list Z) : list Z :=
  merge_sort Z.le (remove_dups ys).

(** Modelled from the spec: [get_available_years()] of the missing
    [core.py], after section 4.4: the ordered set of the years the
    provider lists, asked afresh at each call; [ProviderError] when the
    catalogue cannot be retrieved. *)
Definition get_available_years (w : World)
  : result (list Z) * World :=
  (match catalog (provider w) with
   | Some ys => Ok (ordered_set ys)
   | None => Err ProviderError
   end, send ListYears w).

(** *** Multi-year aggregator *)

(** Each requested year is fetched on its own, in the order of the
    request; a failure is kept beside its year. *)
Fixpoint fetch_each (ys : list Z) (v : variant) (w : World)
  : list (Z * result (list EnrollmentRecord)) * World :=
  match ys with
  | [] => ([], w)
  | y :: ys' =>
      let '(r, w1) := fetch_enr y v w in
      let '(rs, w2) := fetch_each ys' v w1 in
      ((y, r) :: rs, w2)
  end.

Definition by_year {A} (a b : Z * A) : Prop := a.1 ≤ b.1.

#[global] Instance by_year_dec {A} : RelDecision (@by_year A).
Proof. intros a b. unfold by_year. apply _. Defined.

Definition successes {A} (l : list (Z * result A)) : list (Z * A) :=
  omap (fun yr : Z * result A =>
          match yr.2 with Ok a => Some (yr.1, a) | Err _ => None end) l.

Definition failures {A} (l : list (Z * result A)) : list (Z * error) :=
  omap (fun yr : Z * result A =>
          match yr.2 with Ok _ => None | Err e => Some (yr.1, e) end) l.

(** Modelled from the spec: [fetch_enr_multi(years, variant)] of the
    missing [core.py], after sections 4.3 and 5: the years as a set,
    fetched one by one, sorted by year after collection; the failed
    years go to the metadata, and no usable year at all is
    [NoDataError]. *)
Definition fetch_enr_multi (years : list Z) (v : variant) (w : World)
  : result FetchResult * World :=
  let '(collected, w') := fetch_each (remove_dups years) v w in
  let sorted := merge_sort by_year collected in
  (match successes sorted with
   | [] => Err NoDataError
   | ok => Ok {| records := mjoin (snd <$> ok);
                 retrieved := fst <$> ok;
                 failed := failures sorted |}
   end, w').
(** What the provider's data make of a request for one year. *)
Definition answer (p : Provider) (y : Z) (v : variant)
  : result (list EnrollmentRecord) :=
  match table p y v with
  | Published rows => tidy_enr rows
  | NotPublished => Err DataUnavailableError
  | Failed => Err ProviderError
  end.

(** The result of the aggregator on outcomes already sorted by year. *)
Definition aggregate
    (sorted : list (Z * result (list EnrollmentRecord)))
  : result FetchResult :=
  match successes sorted with
  | [] => Err NoDataError
  | ok => Ok {| records := mjoin (snd <$> ok);
                retrieved := fst <$> ok;
                failed := failures sorted |}
  end.
End provider.

Arguments Provider variant : clear implicits.
Arguments World variant : clear implicits.
Arguments request variant : clear implicits.

(** *** A small provider, for examples *)

Definition rows_2019 : list raw_row :=
  [ {| raw_year := 2019; raw_school := "A"; raw_grade := "K";
       raw_counts := [("white", Number 5); ("asian", Number 1)] |} ].

Definition rows_2020 : list raw_row :=
  [ {| raw_year := 2020; raw_school := "B"; raw_grade := "01";
       raw_counts := [("white", Number 3); ("black", Null);
                      ("asian", Number 0)] |} ].

Definition tidy_2019 : list EnrollmentRecord :=
  [ {| year := 2019; school := "A"; grade := "K"; category := "asian";
       count := 1 |};
    {| year := 2019; school := "A"; grade := "K"; category := "white";
       count := 5 |} ].

Definition tidy_2020 : list EnrollmentRecord :=
  [ {| year := 2020; school := "B"; grade := "01"; category := "asian";
       count := 0 |};
    {| year := 2020; school := "B"; grade := "01"; category := "white";
       count := 3 |} ].

(** 2019 and 2020 are published, the call for 2021 fails, no other year
    is published; the catalogue lists the years out of order and one of
    them twice. *)
Definition demo_provider : Provider unit :=
  {| catalog := Some [2021; 2019; 2020; 2019];
     table := fun y _ =>
       if y =? 2019 then Published rows_2019
       else if y =? 2020 then Published rows_2020
       else if y =? 2021 then Failed
       else NotPublished |}.

Definition demo_world : World unit :=
  {| provider := demo_provider; sent := [] |}.

End Core.

(** ** Running the tests *)

(** The test functions as pytest runs them: each is called with no
    argument, its body runs in a fresh local namespace over the globals
    of the test module, and any exception that leaves the body fails the
    test.  All tests of a session share [sys.modules]. *)

Module Pytest.
Import Py Loader.

(** What an expression of a test evaluates to: an object or a truth
    value. *)
Inductive obj : Type :=
| OVal (v : value)
| OBool (b : bool).

(** What makes a test fail: an exception of the loader's kinds with its
    traceback, or an attribute a module does not have. *)
Inductive failure : Type :=
| Exception (e : exn) (tb : list (list string * nat))
| AttributeError (m : list string) (a : string).

Inductive verdict : Type :=
| Passed
| Failed (i : nat) (why : failure)     (* at statement [i] of the body *)
| NoVerdict.                           (* the loader ran out of fuel *)

(** A name a function binds anywhere in its body is local to it, and
    reading it before it is bound is an error ([UnboundLocalError], a
    [NameError]); any other name is a global of the module or a
    builtin. *)
Definition lookup_name (σ : gmap (list string) (gmap string value))
    (globals : list string) (locals : gmap string value)
    (local_names : list string) (x : string) : value + failure :=
  if bool_decide (x ∈ local_names) then
    match locals !! x with
    | Some v => inl v
    | None => inr (Exception (NameError x) [])
    end
  else
    match getattr σ globals x with
    | Some v => inl v
    | None => if bool_decide (x ∈ builtins) then inl (VBuiltin x)
              else inr (Exception (NameError x) [])
    end.

Definition is_callable (o : obj) : bool :=
  match o with
  | OVal (VFunc _ _) | OVal (VBuiltin _) => true
  | _ => false
  end.

Definition is_str (o : obj) : bool :=
  match o with
  | OVal (VStr _) => true
  | _ => false
  end.

Definition is_none (o : obj) : bool :=
  match o with
  | OVal VNone => true
  | _ => false
  end.

(** The three builtins the tests call.  [hasattr] is modelled on modules
    only, [isinstance] for the class [str] only. *)
Definition call_builtin (σ : gmap (list string) (gmap string value))
    (f : string) (args : list obj) : obj + failure :=
  if String.eqb f "hasattr" then
    match args with
    | [OVal (VModule m); OVal (VStr a)] =>
        inl (OBool (bool_decide (is_Some (getattr σ m a))))
    | _ => inr (Exception Unsupported [])
    end
  else if String.eqb f "callable" then
    match args with
    | [o] => inl (OBool (is_callable o))
    | _ => inr (Exception Unsupported [])
    end
  else if String.eqb f "isinstance" then
    match args with
    | [o; OVal (VBuiltin c)] =>
        if String.eqb c "str" then inl (OBool (is_str o))
        else inr (Exception Unsupported [])
    | _ => inr (Exception Unsupported [])
    end
  else inr (Exception Unsupported []).

(** Expressions of a test body: the callee is evaluated before the
    arguments, the arguments left to right; [is not] is modelled against
    [None] only; a call of anything but a builtin is outside the model. *)
Fixpoint eval_obj (σ : gmap (list string) (gmap string value))
    (globals : list string) (locals : gmap string value)
    (local_names : list string) (e : expr) : obj + failure :=
  match e with
  | EStr s => inl (OVal (VStr s))
  | ENone => inl (OVal VNone)
  | EName x =>
      match lookup_name σ globals locals local_names x with
      | inl v => inl (OVal v)
      | inr why => inr why
      end
  | EAttr e a =>
      match eval_obj σ globals locals local_names e with
      | inl (OVal (VModule m)) =>
          match getattr σ m a with
          | Some v => inl (OVal v)
          | None => inr (AttributeError m a)
          end
      | inl _ => inr (Exception Unsupported [])
      | inr why => inr why
      end
  | EIsNot e1 e2 =>
      match eval_obj σ globals locals local_names e1 with
      | inl o1 =>
          match eval_obj σ globals locals local_names e2 with
          | inl (OVal VNone) => inl (OBool (negb (is_none o1)))
          | inl _ => inr (Exception Unsupported [])
          | inr why => inr why
          end
      | inr why => inr why
      end
  | ECall f args =>
      match eval_obj σ globals locals local_names f with
      | inl (OVal (VBuiltin b)) =>
          let fix eval_args (es : list expr) : list obj + failure :=
            match es with
            | [] => inl []
            | e :: es' =>
                match eval_obj σ globals locals local_names e with
                | inl o => match eval_args es' with
                           | inl os => inl (o :: os)
                           | inr why => inr why
                           end
                | inr why => inr why
                end
            end in
          match eval_args args with
          | inl os => call_builtin σ b os
          | inr why => inr why
          end
      | inl _ => inr (Exception Unsupported [])
      | inr why => inr why
      end
  | EList _ => inr (Exception Unsupported [])
  end.

Definition truth (o : obj) : bool :=
  match o with
  | OBool b => b
  | OVal v => truthy v
  end.

(** One statement of a test body; [None] when it completes.  Only the
    statements the tests use are modelled. *)
Definition run_stmt (fuel : nat) (fs : gmap (list string) module_file)
    (globals : list string) (local_names : list string) (s : stmt)
    (σ : gmap (list string) (gmap string value))
    (locals : gmap string value)
  : option (option failure) * gmap (list string) (gmap string value)
    * gmap string value :=
  match s with
  | SExpr e =>
      match eval_obj σ globals locals local_names e with
      | inl _ => (Some None, σ, locals)
      | inr why => (Some (Some why), σ, locals)
      end
  | SAssert e =>
      match eval_obj σ globals locals local_names e with
      | inl o => if truth o then (Some None, σ, locals)
                 else (Some (Some (Exception AssertionError [])), σ, locals)
      | inr why => (Some (Some why), σ, locals)
      end
  | SImport m =>
      match import_module fuel fs m σ with
      | (Done, σ') =>
          (Some None, σ',
           match m with
           | top :: _ => <[top := VModule [top]]> locals
           | [] => locals
           end)
      | (Raised e tb, σ') => (Some (Some (Exception e tb)), σ', locals)
      | (OutOfFuel, σ') => (None, σ', locals)
      end
  | SAssign _ _ | SImportFrom _ _ _ | SDef _ _ =>
      (Some (Some (Exception Unsupported [])), σ, locals)
  end.

Fixpoint run_body (fuel : nat) (fs : gmap (list string) module_file)
    (globals : list string) (local_names : list string) (i : nat)
    (body : list stmt) (σ : gmap (list string) (gmap string value))
    (locals : gmap string value)
  : verdict * gmap (list string) (gmap string value) :=
  match body with
  | [] => (Passed, σ)
  | s :: rest =>
      match run_stmt fuel fs globals local_names s σ locals with
      | (Some None, σ', locals') =>
          run_body fuel fs globals local_names (S i) rest σ' locals'
      | (Some (Some why), σ', _) => (Failed i why, σ')
      | (None, σ', _) => (NoVerdict, σ')
      end
  end.

(** The module pytest imports the test file as. *)
Definition test_pyvtschooldata : list string := ["test_pyvtschooldata"].

(** The call of one test function. *)
Definition run_test (fuel : nat) (fs : gmap (list string) module_file)
    (body : list stmt) (σ : gmap (list string) (gmap string value))
  : verdict * gmap (list string) (gmap string value) :=
  run_body fuel fs test_pyvtschooldata (bound_names body) 0 body σ ∅.

(** The tests of the file one after the other, in the order of the file,
    each with the [sys.modules] the one before left. *)
Fixpoint run_tests (fuel : nat) (fs : gmap (list string) module_file)
    (tests : list (string * list stmt))
    (σ : gmap (list string) (gmap string value))
  : list (string * verdict) * gmap (list string) (gmap string value) :=
  match tests with
  | [] => ([], σ)
  | (name, body) :: rest =>
      let '(v, σ1) := run_test fuel fs body σ in
      let '(vs, σ2) := run_tests fuel fs rest σ1 in
      ((name, v) :: vs, σ2)
  end.

Definition run_suite (fuel : nat) (fs : gmap (list string) module_file)
    (σ : gmap (list string) (gmap string value))
  : list (string * verdict) * gmap (list string) (gmap string value) :=
  run_tests fuel fs (test_functions test_module) σ.

(** The body of a function definition. *)
Definition body_of (s : stmt) : list stmt :=
  match s with
  | SDef _ b => b
  | _ => []
  end.

(** The test module does not give a name of its own to a builtin. *)
Definition builtins_visible (σ : gmap (list string) (gmap string value))
  : Prop :=
  Forall (fun x => getattr σ test_pyvtschooldata x = None) builtins.

(** What a test that asserts [hasattr(pyvtschooldata, a)] and then
    [callable(pyvtschooldata.a)] makes of the attribute. *)
Definition callable_verdict (attr : option value) : verdict :=
  match attr with
  | None => Failed 2 (Exception AssertionError [])
  | Some v => if is_callable (OVal v) then Passed
              else Failed 3 (Exception AssertionError [])
  end.

(** The same for [isinstance(pyvtschooldata.a, str)]. *)
Definition str_verdict (attr : option value) : verdict :=
  match attr with
  | None => Failed 2 (Exception AssertionError [])
  | Some v => if is_str (OVal v) then Passed
              else Failed 3 (Exception AssertionError [])
  end.

(** The verdict of a test that could not import the package. *)
Definition import_verdict (r : outcome) (passed : verdict) : verdict :=
  match r with
  | Done => passed
  | Raised e tb => Failed 1 (Exception e tb)
  | OutOfFuel => NoVerdict
  end.

(** A file system that also has a [pytest] module and a plain [core]
    with the four functions. *)
Definition pytest_fs : gmap (list string) module_file :=
  <[ ["pytest"] := {| is_package := false; body := [] |} ]> stub_fs.

(** The plain import of the test file, from an empty [sys.modules].  The
    two globals pytest's assertion rewriting adds to a test module
    ([@py_builtins] and [@pytest_ar], no identifiers) are not modelled. *)
Definition collected (fuel : nat) (fs : gmap (list string) module_file)
  : outcome * gmap (list string) (gmap string value) :=
  import_module fuel fs test_pyvtschooldata ∅.

(** A [core] that needs a module the file system does not have. *)
Definition needs_rpy2_fs : gmap (list string) module_file :=
  <[core := {| is_package := false; body := [SImport ["rpy2"]] |}]>
    repository_fs.

(** A [core] that defines the first of the four functions only. *)
Definition partial_fs : gmap (list string) module_file :=
  <[core := {| is_package := false; body := [SDef "fetch_enr" []] |}]>
    repository_fs.

End Pytest.

(** * Facts *)

(** ** The size of the repository *)

Section text_facts.
Import Source.

Lemma splitlines_nil (s : string) : splitlines s = [] -> s = EmptyString.
Proof.
  destruct s as [|c rest]; [done|]. simpl.
  destruct (Ascii.eqb c newline); [done|].
  destruct (splitlines rest); done.
Qed.

(** The lines of a text are its line feeds, and one more for a last line
    that no line feed ends. *)
Lemma count_lines_newlines (s : string) :
  count_lines s =
    count_newlines s + (if ends_with_newline s then 0 else 1).
Proof.
  unfold count_lines. induction s as [|c rest IH]; [done|].
  cbn [splitlines count_newlines].
  destruct (Ascii.eqb c newline) eqn:Hc.
  - cbn [length]. rewrite IH.
    destruct rest as [|d rest']; [cbn; rewrite Hc; done|].
    cbn [ends_with_newline]. lia.
  - destruct rest as [|d rest'].
    + cbn. rewrite Hc. done.
    + destruct (splitlines (String d rest')) as [|l ls] eqn:Hs.
      * apply splitlines_nil in Hs. done.
      * cbn [length] in *. rewrite IH. cbn [ends_with_newline]. lia.
Qed.

(** The embedded texts have the sizes of the files. *)
Lemma source_sizes :
  String.length init_py = 357 /\ String.length test_py = 962.
Proof. split; vm_compute; reflexivity. Qed.

(** The test file has no final line feed: [wc -l] counts 34 there. *)
Lemma newline_counts :
  count_newlines init_py = 17 /\ ends_with_newline init_py = true /\
  count_newlines test_py = 34 /\ ends_with_newline test_py = false.
Proof. repeat split; vm_compute; reflexivity. Qed.

(** C3: the repository is 52 lines of source: the 17 lines of
    [__init__.py] and the 35 lines of the test file. *)
Theorem repository_has_52_lines :
  count_lines init_py = 17 /\ count_lines test_py = 35 /\
  total_lines repository = 52.
Proof.
  destruct newline_counts as (N1 & E1 & N2 & E2).
  assert (H1 : count_lines init_py = 17).
  { rewrite count_lines_newlines, N1, E1. reflexivity. }
  assert (H2 : count_lines test_py = 35).
  { rewrite count_lines_newlines, N2, E2. reflexivity. }
  split; [exact H1|]. split; [exact H2|].
  unfold repository, total_lines. cbn [foldr]. rewrite H1, H2. reflexivity.
Qed.
End text_facts.

(** ** The export surface and the tests *)

Section surface_facts.
Import Py.

(** C1: the public surface of the package is the four functions
    [fetch_enr], [fetch_enr_multi], [tidy_enr] and [get_available_years]:
    [__all__] lists them, the initialiser imports them from [.core], a
    name is public exactly when it is one of them, and the initialiser
    defines no function and binds no other name without a leading
    underscore. *)
Theorem public_surface_is_four_functions :
  dunder_all init_module = Some call_surface /\
  from_imports init_module = [(1, ["core"], call_surface)] /\
  (forall x, x ∈ public_names init_module <-> x ∈ call_surface) /\
  defined_functions init_module = [] /\
  filter (fun x => starts_with_underscore x = false)
         (bound_names init_module) = call_surface.
Proof.
  assert (Hall : dunder_all init_module = Some call_surface) by reflexivity.
  split; [exact Hall|]. split; [reflexivity|]. split.
  - intros x. unfold public_names. rewrite Hall. reflexivity.
  - split; [reflexivity|]. vm_compute. reflexivity.
Qed.

(** C2: every test function consists of a docstring, the import of the
    package and structural assertions only (the package is imported,
    [fetch_enr] and [get_available_years] are attributes and callable,
    [__version__] is an attribute and a string), and the only functions
    a test calls are [hasattr], [callable] and [isinstance]: no function
    of the package is ever called. *)
Theorem tests_check_structure_only :
  map (fun t : string * list stmt => (t.1, body_checks t.2))
      (test_functions test_module) = structural_checks /\
  Forall (fun f => is_inspection f = true)
         (flat_map stmt_callees test_module).
Proof.
  split.
  - reflexivity.
  - cbn [test_module flat_map stmt_callees callees app
         test_import_package test_has_fetch_enr
         test_has_get_available_years test_has_version pkg].
    repeat constructor.
Qed.
End surface_facts.

(** ** Importing the package *)

Section import_facts.
Import Py Loader.

Lemma getattr_setattr_ne (σ : gmap (list string) (gmap string value)) (self target : list string) (x y : string) (v : value) :
  self ≠ target ->
  getattr (setattr self x v σ) target y = getattr σ target y.
Proof.
  intros Hne. unfold getattr, setattr. by rewrite lookup_alter_ne.
Qed.

Lemma exec_init_tail (self : list string) (imp : list string -> gmap (list string) (gmap string value) -> outcome * gmap (list string) (gmap string value)) (fs : gmap (list string) module_file) (i : nat) (σ σ' : gmap (list string) (gmap string value)) (target : list string) (y : string) :
  self ≠ target ->
  exec_body imp fs self i
    [ SAssign "__version__" (EStr "0.1.0");
      SAssign "__all__"
        (EList [EStr "fetch_enr"; EStr "fetch_enr_multi"; EStr "tidy_enr";
                EStr "get_available_years"]) ] σ = (Done, σ') ->
  getattr σ' target y = getattr σ target y.
Proof.
  intros Hne Hrun. cbn in Hrun. inversion Hrun; subst.
  by rewrite !getattr_setattr_ne.
Qed.

Lemma pkg_ne_core : pyvtschooldata ≠ core.
Proof. discriminate. Qed.

Lemma resolve_core (fs : gmap (list string) module_file) :
  fs !! pyvtschooldata = Some init_file ->
  resolve fs pyvtschooldata 1 ["core"] = Some core.
Proof.
  intros Hinit. unfold resolve, package_of, is_pkg. rewrite Hinit.
  reflexivity.
Qed.

Lemma import_cached (fuel : nat) (fs : gmap (list string) module_file)
    (name : list string) (σ : gmap (list string) (gmap string value)) :
  is_Some (σ !! name) -> import_module fuel fs name σ = (Done, σ).
Proof. intros [ns Hns]. destruct fuel; simpl; by rewrite Hns. Qed.

Lemma import_core_found (fuel : nat) (fs : gmap (list string) module_file)
    (σ1 : gmap (list string) (gmap string value)) :
  import_module fuel fs core (<[pyvtschooldata:=∅]> ∅) = (Done, σ1) ->
  is_Some (fs !! core).
Proof.
  intros Hrun. destruct fuel as [|k]; simpl in Hrun.
  - rewrite lookup_insert_ne in Hrun by exact pkg_ne_core.
    by rewrite lookup_empty in Hrun.
  - rewrite lookup_insert_ne, lookup_empty in Hrun by exact pkg_ne_core.
    change (removelast core) with pyvtschooldata in Hrun.
    rewrite import_cached in Hrun
      by (rewrite lookup_insert_eq; eauto).
    rewrite lookup_insert_ne, lookup_empty in Hrun by exact pkg_ne_core.
    destruct (negb _); [done|].
    destruct (fs !! core); [eauto | done].
Qed.

Lemma import_module_unfold (k : nat) (fs : gmap (list string) module_file)
    (name : list string) (σ : gmap (list string) (gmap string value)) :
  import_module (S k) fs name σ =
    match σ !! name with
    | Some _ => (Done, σ)
    | None =>
        match (match parent name with
               | Some p => import_module k fs p σ
               | None => (Done, σ)
               end) with
        | (Done, σ1) =>
            match σ1 !! name with
            | Some _ => (Done, σ1)
            | None =>
                if match parent name with
                   | Some p => negb (is_pkg fs p)
                   | None => false
                   end
                then (Raised (ImportError (ModuleNotFound name)) [], σ1)
                else
                  match fs !! name with
                  | None =>
                      (Raised (ImportError (ModuleNotFound name)) [], σ1)
                  | Some f =>
                      match exec_body (import_module k fs) fs name 0
                              (body f) (<[name := ∅]> σ1) with
                      | (Done, σ2) => (Done, bind_child name σ2)
                      | (r, σ2) => (r, delete name σ2)
                      end
                  end
            end
        | r => r
        end
    end.
Proof. reflexivity. Qed.

Lemma import_core_missing (k : nat) (fs : gmap (list string) module_file) :
  fs !! pyvtschooldata = Some init_file ->
  fs !! core = None ->
  import_module (S k) fs core (<[pyvtschooldata:=∅]> ∅) =
    (Raised (ImportError (ModuleNotFound core)) [], <[pyvtschooldata:=∅]> ∅).
Proof.
  intros Hinit Hcore. simpl.
  rewrite lookup_insert_ne, lookup_empty by exact pkg_ne_core.
  change (removelast core) with pyvtschooldata.
  rewrite import_cached by (rewrite lookup_insert_eq; eauto).
  rewrite lookup_insert_ne, lookup_empty by exact pkg_ne_core.
  rewrite Hcore. by destruct (negb _).
Qed.

Lemma import_without_core (k : nat) (fs : gmap (list string) module_file) :
  fs !! pyvtschooldata = Some init_file ->
  fs !! core = None ->
  import_module (S (S k)) fs pyvtschooldata ∅ =
    (Raised (ImportError (ModuleNotFound core)) [(pyvtschooldata, 1)], ∅).
Proof.
  intros Hinit Hcore.
  rewrite (import_module_unfold (S k)), lookup_empty.
  cbn [parent pyvtschooldata]. rewrite lookup_empty.
  fold pyvtschooldata. rewrite Hinit.
  cbn [body init_file init_module exec_body exec_stmt eval].
  rewrite (resolve_core fs Hinit).
  rewrite (import_core_missing k fs Hinit Hcore).
  by rewrite delete_insert_eq.
Qed.

Lemma repository_has_init : repository_fs !! pyvtschooldata = Some init_file.
Proof. unfold repository_fs. by rewrite lookup_insert_eq. Qed.

Lemma repository_has_no_core : repository_fs !! core = None.
Proof.
  unfold repository_fs.
  rewrite lookup_insert_ne by exact pkg_ne_core.
  by rewrite lookup_singleton_ne.
Qed.

End import_facts.

(** ** The order of a tidy table *)

Section order_facts.
Import Core.

Lemma compare_refl (s : string) : String.compare s s = Eq.
Proof. by apply String_as_OT.cmp_eq. Qed.

Lemma compare_lt_trans (s t u : string) :
  String.compare s t = Lt -> String.compare t u = Lt ->
  String.compare s u = Lt.
Proof.
  intros H1 H2. apply String_as_OT.cmp_lt.
  apply String_as_OT.cmp_lt in H1, H2.
  eapply String_as_OT.lt_trans; eassumption.
Qed.

Lemma compare_gt_lt (s t : string) :
  String.compare s t = Gt <-> String.compare t s = Lt.
Proof.
  rewrite (String.compare_antisym t s).
  destruct (String.compare s t); simpl; split; congruence.
Qed.

(** The comparison of two strings decides the one with a third. *)
Lemma compare_le_trans (s t u : string) :
  String.compare s t ≠ Gt -> String.compare t u ≠ Gt ->
  String.compare s u ≠ Gt /\
  (String.compare s u = Eq -> s = t /\ t = u).
Proof.
  intros H1 H2.
  destruct (String.compare s t) eqn:Hst; [| |done];
    destruct (String.compare t u) eqn:Htu; [| |done| | |done].
  - apply String.compare_eq_iff in Hst, Htu. subst.
    rewrite compare_refl. done.
  - apply String.compare_eq_iff in Hst. subst. rewrite Htu. done.
  - apply String.compare_eq_iff in Htu. subst. rewrite Hst. done.
  - rewrite (compare_lt_trans s t u) by done. done.
Qed.

Lemma key_compare_antisym (a b : EnrollmentRecord) :
  key_compare b a = CompOpp (key_compare a b).
Proof.
  unfold key_compare.
  rewrite (String.compare_antisym (school a) (school b)),
          (String.compare_antisym (grade a) (grade b)),
          (String.compare_antisym (category a) (category b)).
  destruct (String.compare (school b) (school a)); simpl; try done.
  destruct (String.compare (grade b) (grade a)); simpl; try done.
  by destruct (String.compare (category b) (category a)).
Qed.

#[global] Instance key_le_total : Total key_le.
Proof.
  intros a b. unfold key_le. rewrite (key_compare_antisym a b).
  destruct (key_compare a b); simpl; [left | left | right]; congruence.
Qed.

#[global] Instance key_le_trans : Transitive key_le.
Proof.
  intros a b c. unfold key_le, key_compare. intros Hab Hbc.
  destruct (compare_le_trans (school a) (school b) (school c)) as [Hs Hs'].
  { by destruct (String.compare (school a) (school b)). }
  { by destruct (String.compare (school b) (school c)). }
  destruct (String.compare (school a) (school c)) eqn:Hsc; [|done|done].
  destruct Hs' as [E1 E2]; [done|].
  rewrite E1, compare_refl in Hab. rewrite <- E2, compare_refl in Hbc.
  destruct (compare_le_trans (grade a) (grade b) (grade c)) as [Hg Hg'].
  { by destruct (String.compare (grade a) (grade b)). }
  { by destruct (String.compare (grade b) (grade c)). }
  destruct (String.compare (grade a) (grade c)) eqn:Hgc; [|done|done].
  destruct Hg' as [E3 E4]; [done|].
  rewrite E3, compare_refl in Hab. rewrite <- E4, compare_refl in Hbc.
  by apply (compare_le_trans (category a) (category b) (category c)).
Qed.
End order_facts.

(** ** The functions of [core] *)

Section core_facts.
Import Core.
Local Open Scope Z_scope.
Context {variant : Type}.

(** Every count of a tidy table is a non-negative integer. *)
Lemma to_record_count (x : raw_row * string * cell) (r : EnrollmentRecord) :
  to_record x = Some r -> 0 ≤ count r.
Proof.
  unfold to_record. destruct x as [[row cat] c]. simpl.
  destruct c as [|z|s]; simpl; try done.
  destruct (decide (0 ≤ z)); simpl; [|done].
  intros [= <-]. done.
Qed.

Lemma tidy_enr_counts (raw : list raw_row) (recs : list EnrollmentRecord) :
  tidy_enr raw = Ok recs -> Forall (fun r => 0 ≤ count r) recs.
Proof.
  unfold tidy_enr.
  destruct (mapM to_record _) as [rs|] eqn:Hrs; [|done].
  intros [= <-]. rewrite merge_sort_Permutation.
  apply mapM_Some in Hrs.
  induction Hrs as [|x r xs rs Hx _ IH]; constructor; [|done].
  by eapply to_record_count.
Qed.

(** Whatever [fetch_enr] returns, its counts are non-negative. *)
Lemma fetch_enr_counts (y : Z) (v : variant) (w : World variant)
    (recs : list EnrollmentRecord) :
  (fetch_enr y v w).1 = Ok recs -> Forall (fun r => 0 ≤ count r) recs.
Proof.
  unfold fetch_enr, fetch_raw.
  destruct (table (provider w) y v); simpl; try done.
  apply tidy_enr_counts.
Qed.

(** C6: [tidy_enr] is a function of its raw input alone (equal inputs
    give equal outputs), it fails with [SchemaError] only, and its
    records are sorted by school, then grade, then category. *)
Theorem tidy_enr_pure_and_sorted (raw : list raw_row) :
  (forall raw' : list raw_row, raw' = raw -> tidy_enr raw' = tidy_enr raw) /\
  match tidy_enr raw with
  | Ok recs => StronglySorted key_le recs
  | Err e => e = SchemaError
  end.
Proof.
  split.
  - intros raw' ->. reflexivity.
  - unfold tidy_enr. destruct (mapM to_record _) as [rs|]; [|done].
    apply StronglySorted_merge_sort; apply _.
Qed.

(** A list in ascending order with no repetition is strictly ascending. *)
Lemma StronglySorted_le_lt (l : list Z) :
  StronglySorted Z.le l -> NoDup l -> StronglySorted Z.lt l.
Proof.
  induction 1 as [|x l Hl IH Hx]; intros Hnd; [constructor|].
  apply NoDup_cons in Hnd as [Hnotin Hnd].
  constructor; [by apply IH|].
  rewrite Forall_forall in Hx |- *. intros y Hy.
  specialize (Hx y Hy). assert (x ≠ y) by (intros ->; done). lia.
Qed.

Lemma ordered_set_sorted (ys : list Z) :
  StronglySorted Z.lt (ordered_set ys) /\ NoDup (ordered_set ys).
Proof.
  assert (Hnd : NoDup (ordered_set ys)).
  { unfold ordered_set. rewrite merge_sort_Permutation.
    apply NoDup_remove_dups. }
  split; [|done]. apply StronglySorted_le_lt; [|done].
  apply StronglySorted_merge_sort; apply _.
Qed.

Lemma elem_of_ordered_set (ys : list Z) (y : Z) :
  y ∈ ordered_set ys <-> y ∈ ys.
Proof.
  unfold ordered_set. by rewrite merge_sort_Permutation, elem_of_remove_dups.
Qed.

(** C7: the years [get_available_years] returns are strictly ascending
    and without duplicates. *)
Theorem get_available_years_ascending (w : World variant) (ys : list Z) :
  (get_available_years w).1 = Ok ys ->
  StronglySorted Z.lt ys /\ NoDup ys.
Proof.
  unfold get_available_years. simpl.
  destruct (catalog (provider w)) as [l|]; [|done].
  intros [= <-]. apply ordered_set_sorted.
Qed.

Lemma fetch_enr_spec (y : Z) (v : variant) (w : World variant) :
  fetch_enr y v w = (answer (provider w) y v, send (GetTable y v) w).
Proof.
  unfold fetch_enr, fetch_raw, answer.
  by destruct (table (provider w) y v).
Qed.

Lemma fetch_enr_provider (y : Z) (v : variant) (w : World variant) :
  provider (fetch_enr y v w).2 = provider w.
Proof. by rewrite fetch_enr_spec. Qed.

Lemma send_provider (q : request variant) (w : World variant) :
  provider (send q w) = provider w.
Proof. done. Qed.

Lemma fetch_each_spec (ys : list Z) (v : variant) (w : World variant) :
  (fetch_each ys v w).1 =
    (fun y => (y, answer (provider w) y v)) <$> ys.
Proof.
  revert w. induction ys as [|y ys IH]; intros w; [done|].
  simpl. rewrite fetch_enr_spec.
  specialize (IH (send (GetTable y v) w)).
  destruct (fetch_each ys v _) as [rs w2]. simpl in *.
  by rewrite IH.
Qed.

#[global] Instance by_year_total {A} : Total (@by_year A).
Proof. intros a b. unfold by_year. lia. Qed.

(** Sorting the collected outcomes by year is sorting the years. *)
Lemma sort_collected {A} (f : Z -> A) (ys : list Z) :
  merge_sort by_year ((fun y => (y, f y)) <$> ys) =
    (fun y => (y, f y)) <$> merge_sort Z.le ys.
Proof.
  set (g := fun y => (y, f y)).
  set (l := merge_sort by_year (g <$> ys)).
  assert (Hshape : Forall (fun z => z = g z.1) l).
  { unfold l. rewrite merge_sort_Permutation.
    apply Forall_fmap, Forall_forall. done. }
  assert (Hyears : fst <$> l = merge_sort Z.le ys).
  { apply (Sorted_unique Z.le).
    - apply (Sorted_fmap fst by_year Z.le); [done|].
      apply Sorted_merge_sort, _.
    - apply Sorted_merge_sort, _.
    - unfold l. rewrite !merge_sort_Permutation, <- list_fmap_compose.
      by rewrite list_fmap_id. }
  rewrite <- Hyears. clear Hyears.
  induction Hshape as [|z l' Hz _ IH]; [done|].
  rewrite !fmap_cons. by f_equal.
Qed.

Lemma fetch_enr_multi_spec (years : list Z) (v : variant)
    (w : World variant) :
  (fetch_enr_multi years v w).1 =
    aggregate ((fun y => (y, answer (provider w) y v)) <$>
                 ordered_set years).
Proof.
  unfold fetch_enr_multi.
  pose proof (fetch_each_spec (remove_dups years) v w) as Hall.
  destruct (fetch_each (remove_dups years) v w) as [collected w'].
  simpl in *. subst collected. by rewrite sort_collected.
Qed.

Lemma ordered_set_Permutation (l l' : list Z) :
  l ≡ₚ l' -> ordered_set l = ordered_set l'.
Proof.
  intros Hp. apply (Sorted_unique Z.le).
  - apply Sorted_merge_sort, _.
  - apply Sorted_merge_sort, _.
  - unfold ordered_set. rewrite !merge_sort_Permutation.
    apply NoDup_Permutation; [apply NoDup_remove_dups..|].
    intros y. by rewrite !elem_of_remove_dups, Hp.
Qed.

(** The request order never affects the result. *)
Lemma fetch_enr_multi_Permutation (years years' : list Z) (v : variant)
    (w : World variant) :
  years ≡ₚ years' ->
  (fetch_enr_multi years v w).1 = (fetch_enr_multi years' v w).1.
Proof.
  intros Hp. rewrite !fetch_enr_multi_spec.
  by rewrite (ordered_set_Permutation years years').
Qed.

Lemma ordered_set_pair (y1 y2 : Z) :
  y1 < y2 -> ordered_set [y1; y2] = [y1; y2].
Proof.
  intros Hlt. apply (Sorted_unique Z.le).
  - apply Sorted_merge_sort, _.
  - repeat constructor. lia.
  - unfold ordered_set. rewrite merge_sort_Permutation.
    apply NoDup_Permutation; [apply NoDup_remove_dups| |].
    + apply NoDup_cons_2; [|apply NoDup_singleton].
      rewrite list_elem_of_singleton. lia.
    + intros y. by rewrite elem_of_remove_dups.
Qed.

(** C4: for two years that both fetch, [y1 < y2], the request
    [[y1; y2]] returns the records of [y1] followed by those of [y2],
    and the request [[y2; y1]] returns the same result. *)
Theorem fetch_enr_multi_ascending (y1 y2 : Z) (v : variant)
    (w : World variant) (r1 r2 : list EnrollmentRecord) :
  (fetch_enr y1 v w).1 = Ok r1 ->
  (fetch_enr y2 v w).1 = Ok r2 ->
  y1 < y2 ->
  (fetch_enr_multi [y1; y2] v w).1 =
    Ok {| records := r1 ++ r2; retrieved := [y1; y2]; failed := [] |} /\
  (fetch_enr_multi [y2; y1] v w).1 = (fetch_enr_multi [y1; y2] v w).1.
Proof.
  rewrite !fetch_enr_spec. simpl. intros H1 H2 Hlt. split.
  - rewrite fetch_enr_multi_spec, ordered_set_pair by done.
    unfold aggregate, successes, failures. simpl. rewrite H1, H2. simpl.
    by rewrite app_nil_r.
  - apply fetch_enr_multi_Permutation. apply Permutation_swap.
Qed.

Lemma elem_of_successes {A} (f : Z -> result A) (l : list Z) (y : Z) (a : A) :
  (y, a) ∈ successes ((fun y => (y, f y)) <$> l) <-> y ∈ l /\ f y = Ok a.
Proof.
  unfold successes. rewrite list_elem_of_omap. split.
  - intros [[y' r] [Hin Hr]]. apply list_elem_of_fmap in Hin as [y'' [E Hin]].
    simpl in Hr. destruct r as [a'|e]; [|done].
    by simplify_eq.
  - intros [Hin Hf]. exists (y, f y). split.
    + apply list_elem_of_fmap. eauto.
    + simpl. by rewrite Hf.
Qed.

Lemma elem_of_failures {A} (f : Z -> result A) (l : list Z) (y : Z) (e : error) :
  (y, e) ∈ failures ((fun y => (y, f y)) <$> l) <-> y ∈ l /\ f y = Err e.
Proof.
  unfold failures. rewrite list_elem_of_omap. split.
  - intros [[y' r] [Hin Hr]]. apply list_elem_of_fmap in Hin as [y'' [E Hin]].
    simpl in Hr. destruct r as [a'|e']; [done|].
    by simplify_eq.
  - intros [Hin Hf]. exists (y, f y). split.
    + apply list_elem_of_fmap. eauto.
    + simpl. by rewrite Hf.
Qed.

(** C5: when one requested year fetches and another fails,
    [fetch_enr_multi] returns a result that holds every record of every
    year that fetched and an entry, with its error, for every year that
    failed; when every requested year fails it returns [NoDataError]. *)
Theorem fetch_enr_multi_partial_failure (years : list Z) (v : variant)
    (w : World variant) :
  ((exists y recs, y ∈ years /\ (fetch_enr y v w).1 = Ok recs) ->
   (exists y e, y ∈ years /\ (fetch_enr y v w).1 = Err e) ->
   exists res,
     (fetch_enr_multi years v w).1 = Ok res /\
     (forall y recs, y ∈ years -> (fetch_enr y v w).1 = Ok recs ->
        y ∈ retrieved res /\ forall r, r ∈ recs -> r ∈ records res) /\
     (forall y e, y ∈ years -> (fetch_enr y v w).1 = Err e ->
        (y, e) ∈ failed res)) /\
  ((forall y, y ∈ years -> exists e, (fetch_enr y v w).1 = Err e) ->
   (fetch_enr_multi years v w).1 = Err NoDataError).
Proof.
  rewrite fetch_enr_multi_spec. unfold aggregate.
  assert (Hf : forall y, (fetch_enr y v w).1 = answer (provider w) y v).
  { intros y. by rewrite fetch_enr_spec. }
  setoid_rewrite Hf. clear Hf.
  pose proof (elem_of_successes (fun y => answer (provider w) y v)
                (ordered_set years)) as Hsuccesses.
  pose proof (elem_of_failures (fun y => answer (provider w) y v)
                (ordered_set years)) as Hfailures.
  setoid_rewrite elem_of_ordered_set in Hsuccesses.
  setoid_rewrite elem_of_ordered_set in Hfailures.
  cbn beta in *.
  destruct (successes _) as [|p ok] eqn:Hsucc.
  - split.
    + intros (y0 & recs0 & Hin0 & Hok0) _.
      assert (Hin : (y0, recs0) ∈ []) by by apply Hsuccesses.
      by apply elem_of_nil in Hin.
    + done.
  - assert (Hp : p ∈ p :: ok) by left.
    rewrite <- Hsucc in *. clear Hsucc. split.
    + intros _ _. eexists. split; [done|]. simpl. split.
      * intros y recs Hy Hok.
        assert (Hin : (y, recs) ∈ successes
                  ((fun y => (y, answer (provider w) y v)) <$>
                     ordered_set years)) by by apply Hsuccesses.
        split.
        -- apply list_elem_of_fmap. by exists (y, recs).
        -- intros r Hr. apply list_elem_of_join. exists recs.
           split; [done|]. apply list_elem_of_fmap. by exists (y, recs).
      * intros y e Hy Herr. by apply Hfailures.
    + intros Hall. exfalso. destruct p as [y recs].
      apply Hsuccesses in Hp as [Hin Hok].
      destruct (Hall y Hin) as [e He]. congruence.
Qed.
End core_facts.

(** ** The theorems at the small provider *)

Section examples.
Import Core.
Local Open Scope Z_scope.

Lemma fetch_enr_multi_ascending_witness :
  (fetch_enr_multi [2019; 2020] tt demo_world).1 =
    Ok {| records := tidy_2019 ++ tidy_2020;
          retrieved := [2019; 2020]; failed := [] |} /\
  (fetch_enr_multi [2020; 2019] tt demo_world).1 =
    (fetch_enr_multi [2019; 2020] tt demo_world).1.
Proof.
  apply (fetch_enr_multi_ascending 2019 2020 tt demo_world
           tidy_2019 tidy_2020).
  - vm_compute. reflexivity.
  - vm_compute. reflexivity.
  - lia.
Defined.

Lemma get_available_years_ascending_witness :
  StronglySorted Z.lt [2019; 2020; 2021] /\ NoDup [2019; 2020; 2021].
Proof.
  apply (get_available_years_ascending demo_world [2019; 2020; 2021]).
  vm_compute. reflexivity.
Defined.

(** A request with a year that fetches, a year whose call fails and a
    year that is not published. *)
Example partial_failure_demo :
  (fetch_enr_multi [2021; 2020; 2018] tt demo_world).1 =
    Ok {| records := tidy_2020; retrieved := [2020];
          failed := [(2018, DataUnavailableError);
                     (2021, ProviderError)] |}.
Proof. vm_compute. reflexivity. Qed.

Example all_fail_demo :
  (fetch_enr_multi [2021; 2018] tt demo_world).1 = Err NoDataError.
Proof. vm_compute. reflexivity. Qed.
End examples.

(** ** What the import leaves in [sys.modules] *)

Section loader_facts.
Import Py Loader.

Lemma setattr_keeps (m m' : list string) (a : string) (v : value)
    (σ : modules) :
  is_Some (setattr m' a v σ !! m) <-> is_Some (σ !! m).
Proof. unfold setattr. apply lookup_alter_is_Some. Qed.

Lemma getattr_setattr_eq (m : list string) (a : string) (v : value)
    (σ : modules) :
  is_Some (σ !! m) -> getattr (setattr m a v σ) m a = Some v.
Proof.
  intros [ns Hns]. unfold getattr, setattr.
  rewrite lookup_alter_eq, Hns. simpl. apply lookup_insert_eq.
Qed.

Lemma getattr_setattr_other (m m' : list string) (a b : string) (v : value)
    (σ : modules) :
  a ≠ b -> getattr (setattr m a v σ) m' b = getattr σ m' b.
Proof.
  intros Hab. unfold getattr, setattr.
  destruct (decide (m = m')) as [->|Hm].
  - rewrite lookup_alter_eq. destruct (σ !! m') as [ns|]; simpl; [|done].
    by rewrite lookup_insert_ne.
  - by rewrite lookup_alter_ne.
Qed.

Section with_import.
Variable imp : list string -> modules -> outcome * modules.
Variable fs : FS.
Hypothesis imp_keeps : forall (name : list string) (σ σ' : modules)
    (r : outcome) (m : list string),
  imp name σ = (r, σ') -> is_Some (σ !! m) -> is_Some (σ' !! m).

Lemma handle_fromlist_keeps (target : list string) (names : list string)
    (σ σ' : modules) (r : outcome) (m : list string) :
  handle_fromlist imp target names σ = (r, σ') ->
  is_Some (σ !! m) -> is_Some (σ' !! m).
Proof.
  revert σ. induction names as [|x rest IH]; intros σ Hrun Hm; simpl in Hrun.
  - by inversion Hrun; subst.
  - destruct (getattr σ target x); [by eapply IH|].
    destruct (imp (target ++ [x]) σ) as [o σ1] eqn:Himp.
    assert (is_Some (σ1 !! m)) by (by eapply imp_keeps).
    destruct o as [|e tb|]; [by eapply IH| |by inversion Hrun; subst].
    destruct e as [why| | |]; try by inversion Hrun; subst.
    destruct why as [m0| |]; try by inversion Hrun; subst.
    destruct (decide (m0 = target ++ [x])); [by eapply IH|].
    by inversion Hrun; subst.
Qed.

Lemma import_from_keeps (self target : list string) (names : list string)
    (σ σ' : modules) (r : outcome) (m : list string) :
  import_from self target names σ = (r, σ') ->
  is_Some (σ !! m) -> is_Some (σ' !! m).
Proof.
  revert σ. induction names as [|x rest IH]; intros σ Hrun Hm; simpl in Hrun.
  - by inversion Hrun; subst.
  - destruct (getattr σ target x) as [v|].
    { eapply IH; [done|]. by apply setattr_keeps. }
    destruct (σ !! (target ++ [x])); [|by inversion Hrun; subst].
    eapply IH; [done|]. by apply setattr_keeps.
Qed.

Lemma exec_stmt_keeps (self : list string) (s : stmt) (σ σ' : modules)
    (r : outcome) (m : list string) :
  exec_stmt imp fs self s σ = (r, σ') ->
  is_Some (σ !! m) -> is_Some (σ' !! m).
Proof.
  intros Hrun Hm. destruct s as [e|mn|level mn names|x e|e|f b]; simpl in Hrun.
  - destruct (eval σ self e); by inversion Hrun; subst.
  - destruct (imp mn σ) as [o σ1] eqn:Himp.
    assert (is_Some (σ1 !! m)) by (by eapply imp_keeps).
    destruct o; try by inversion Hrun; subst.
    inversion Hrun; subst. destruct mn; [done|]. by apply setattr_keeps.
  - destruct (resolve fs self level mn) as [target|];
      [|by inversion Hrun; subst].
    destruct (imp target σ) as [o σ1] eqn:Himp.
    assert (is_Some (σ1 !! m)) by (by eapply imp_keeps).
    destruct o; try by inversion Hrun; subst.
    destruct (if is_pkg fs target then _ else _) as [o2 σ2] eqn:Hfl.
    assert (is_Some (σ2 !! m)).
    { destruct (is_pkg fs target).
      - by eapply handle_fromlist_keeps.
      - by inversion Hfl; subst. }
    destruct o2; try by inversion Hrun; subst.
    by eapply import_from_keeps.
  - destruct (eval σ self e); inversion Hrun; subst; [|done].
    by apply setattr_keeps.
  - destruct (eval σ self e) as [v|]; [|by inversion Hrun; subst].
    destruct (truthy v); by inversion Hrun; subst.
  - inversion Hrun; subst. by apply setattr_keeps.
Qed.

Lemma exec_body_keeps (self : list string) (i : nat) (body : list stmt)
    (σ σ' : modules) (r : outcome) (m : list string) :
  exec_body imp fs self i body σ = (r, σ') ->
  is_Some (σ !! m) -> is_Some (σ' !! m).
Proof.
  revert i σ. induction body as [|s rest IH]; intros i σ Hrun Hm;
    simpl in Hrun.
  - by inversion Hrun; subst.
  - destruct (exec_stmt imp fs self s σ) as [o σ1] eqn:Hs.
    assert (is_Some (σ1 !! m)) by (by eapply exec_stmt_keeps).
    destruct o; [by eapply IH|by inversion Hrun; subst..].
Qed.
End with_import.


Lemma bind_child_keeps (name m : list string) (σ : modules) :
  is_Some (bind_child name σ !! m) <-> is_Some (σ !! m).
Proof.
  unfold bind_child. destruct (parent name); [|done].
  destruct (last name); [|done]. apply setattr_keeps.
Qed.

(** Importing never removes a module from [sys.modules]. *)
Lemma import_module_keeps (fuel : nat) (fs : FS) (name : list string)
    (σ σ' : modules) (r : outcome) (m : list string) :
  import_module fuel fs name σ = (r, σ') ->
  is_Some (σ !! m) -> is_Some (σ' !! m).
Proof.
  revert name σ σ' r m.
  induction fuel as [|k IH]; intros name σ σ' r m Hrun Hm.
  - simpl in Hrun. destruct (σ !! name); by inversion Hrun; subst.
  - rewrite import_module_unfold in Hrun.
    destruct (σ !! name) eqn:Hname; [by inversion Hrun; subst|].
    destruct (match parent name with
              | Some p => import_module k fs p σ
              | None => (Done, σ)
              end) as [o σ1] eqn:Hparent.
    assert (Hm1 : is_Some (σ1 !! m)).
    { destruct (parent name); [by eapply IH|by inversion Hparent; subst]. }
    destruct o; [|by inversion Hrun; subst..].
    destruct (σ1 !! name) eqn:Hname1; [by inversion Hrun; subst|].
    destruct (match parent name with
              | Some p => negb (is_pkg fs p)
              | None => false
              end); [by inversion Hrun; subst|].
    destruct (fs !! name) as [f|]; [|by inversion Hrun; subst].
    assert (Hne : name ≠ m).
    { intros ->. rewrite Hname1 in Hm1. by destruct Hm1. }
    destruct (exec_body _ _ _ _ _ _) as [o2 σ2] eqn:Hbody.
    assert (Hm2 : is_Some (σ2 !! m)).
    { eapply exec_body_keeps; [|exact Hbody|].
      - intros. by eapply IH.
      - rewrite lookup_insert_ne; done. }
    destruct o2; inversion Hrun; subst.
    + by apply bind_child_keeps.
    + apply lookup_delete_is_Some. done.
    + apply lookup_delete_is_Some. done.
Qed.

Lemma submodules_bound_setattr (c : list string)
    (loading : list string -> Prop) (m : list string) (a : string)
    (v : value) (σ : modules) :
  submodules_bound c loading σ ->
  submodules_bound c loading (setattr m a v σ).
Proof.
  intros Hb x Hx. apply setattr_keeps in Hx.
  destruct (Hb x Hx) as [?|[w Hw]]; [by left|right].
  destruct (decide (a = x)) as [->|Hne].
  - destruct (decide (m = c)) as [->|Hm].
    + rewrite getattr_setattr_eq; [eauto|].
      unfold getattr in Hw. destruct (σ !! c); [eauto|done].
    + rewrite getattr_setattr_ne by done. eauto.
  - rewrite getattr_setattr_other by done. eauto.
Qed.

(** An expression raises a [NameError] or is outside the model; it
    never raises an [ImportError]. *)
Lemma eval_raises (σ : modules) (self : list string) (e : expr) (x : exn) :
  eval σ self e = inr x -> (exists n, x = NameError n) \/ x = Unsupported.
Proof.
  revert e x. fix IH 1. intros e x. destruct e as [s| |n|es|e a|f args|e1 e2];
    simpl; try done; try (intros [= <-]; by right).
  - destruct (getattr σ self n); [done|].
    destruct (bool_decide _); [done|]. intros [= <-]. left. eauto.
  - match goal with
    | |- context [match ?t es with _ => _ end] => set (eval_all := t)
    end.
    assert (Hall : forall l y, eval_all l = inr y ->
              (exists n, y = NameError n) \/ y = Unsupported).
    { induction l as [|e l IHl]; intros y; simpl; [done|].
      destruct (eval σ self e) as [v|z] eqn:He.
      - destruct (eval_all l) as [vs|z]; [done|].
        intros [= <-]. by apply IHl.
      - intros [= <-]. by eapply IH. }
    destruct (eval_all es) as [vs|z] eqn:Hes; [done|].
    intros [= <-]. by eapply Hall.
Qed.

Lemma eval_not_import (σ : modules) (self : list string) (e : expr)
    (why : import_failure) :
  eval σ self e ≠ inr (ImportError why).
Proof.
  intros He. apply eval_raises in He as [[n Hn]|Hn]; done.
Qed.

Lemma parent_snoc (c : list string) (x : string) :
  c ≠ [] -> parent (c ++ [x]) = Some c.
Proof.
  intros Hc. destruct c as [|a c]; [done|].
  unfold parent. change ((a :: c) ++ [x]) with (a :: (c ++ [x])).
  destruct (c ++ [x]) as [|b l] eqn:Hl.
  - by destruct c.
  - rewrite <- Hl. change (a :: (c ++ [x])) with ((a :: c) ++ [x]).
    by rewrite removelast_last.
Qed.

Lemma parent_snoc_inv (t p : list string) (x : string) :
  parent (t ++ [x]) = Some p -> p = t.
Proof.
  destruct t as [|a t]; [done|].
  rewrite parent_snoc by done. congruence.
Qed.

Lemma lookup_None_keeps (σ σ' : modules) (m : list string) :
  (is_Some (σ !! m) -> is_Some (σ' !! m)) ->
  σ' !! m = None -> σ !! m = None.
Proof.
  intros Hkeeps Hnone. destruct (σ !! m) eqn:Hm; [|done].
  destruct Hkeeps as [? ?]; [eauto|congruence].
Qed.

(** A module that loads is in [sys.modules] afterwards. *)
Lemma import_module_loaded (fuel : nat) (fs : FS) (name : list string)
    (σ σ' : modules) :
  import_module fuel fs name σ = (Done, σ') -> is_Some (σ' !! name).
Proof.
  intros Hrun. destruct fuel as [|k].
  - simpl in Hrun. destruct (σ !! name) eqn:Hname; [|done].
    inversion Hrun; subst. eauto.
  - rewrite import_module_unfold in Hrun.
    destruct (σ !! name) eqn:Hname; [inversion Hrun; subst; eauto|].
    destruct (match parent name with
              | Some p => import_module k fs p σ
              | None => (Done, σ)
              end) as [[|e tb|] σ1]; [|done..].
    destruct (σ1 !! name) eqn:Hname1; [inversion Hrun; subst; eauto|].
    destruct (match parent name with
              | Some p => negb (is_pkg fs p)
              | None => false
              end); [done|].
    destruct (fs !! name) as [f|]; [|done].
    destruct (exec_body _ _ _ _ _ _) as [[|e tb|] σ2] eqn:Hbody; [|done..].
    inversion Hrun; subst. apply bind_child_keeps.
    eapply exec_body_keeps; [|exact Hbody|].
    + intros. by eapply import_module_keeps.
    + rewrite lookup_insert_eq. eauto.
Qed.

Section with_import_invariants.
Variable imp : list string -> modules -> outcome * modules.
Variable fs : FS.
Variable c : list string.
Hypothesis c_nonempty : c ≠ [].
Hypothesis imp_keeps : forall (name : list string) (σ σ' : modules)
    (r : outcome) (m : list string),
  imp name σ = (r, σ') -> is_Some (σ !! m) -> is_Some (σ' !! m).
Hypothesis imp_loaded : forall (name : list string) (σ σ' : modules),
  imp name σ = (Done, σ') -> is_Some (σ' !! name).
Hypothesis imp_fresh : forall (name m : list string) (σ σ' : modules)
    (tb : list (list string * nat)),
  imp name σ = (Raised (ImportError (ModuleNotFound m)) tb, σ') ->
  σ !! m = None.
Hypothesis imp_same : forall (name : list string) (σ σ' : modules)
    (tb : list (list string * nat)),
  (forall p, parent name = Some p -> is_Some (σ !! p)) ->
  imp name σ = (Raised (ImportError (ModuleNotFound name)) tb, σ') ->
  σ' = σ.
Hypothesis imp_bound : forall (name : list string) (σ σ' : modules)
    (loading : list string -> Prop),
  imp name σ = (Done, σ') ->
  submodules_bound c loading σ -> submodules_bound c loading σ'.

Lemma handle_fromlist_fresh (target : list string) (names : list string)
    (m : list string) (σ σ' : modules) (tb : list (list string * nat)) :
  handle_fromlist imp target names σ =
    (Raised (ImportError (ModuleNotFound m)) tb, σ') ->
  σ !! m = None.
Proof.
  revert σ. induction names as [|x rest IH]; intros σ Hrun; simpl in Hrun.
  - done.
  - destruct (getattr σ target x); [by eapply IH|].
    destruct (imp (target ++ [x]) σ) as [o σ1] eqn:Himp.
    assert (Hk : σ1 !! m = None -> σ !! m = None).
    { apply lookup_None_keeps. by eapply imp_keeps. }
    destruct o as [|e tb1|]; [by apply Hk, IH| |done].
    destruct e as [why| | |]; try done.
    destruct why as [m0| |]; try done.
    destruct (decide (m0 = target ++ [x])); [by apply Hk, IH|].
    inversion Hrun; subst. by eapply imp_fresh.
Qed.

Lemma handle_fromlist_bound (target : list string) (names : list string)
    (σ σ' : modules) (loading : list string -> Prop) :
  is_Some (σ !! target) ->
  handle_fromlist imp target names σ = (Done, σ') ->
  submodules_bound c loading σ -> submodules_bound c loading σ'.
Proof.
  revert σ. induction names as [|x rest IH]; intros σ Ht Hrun Hb;
    simpl in Hrun.
  - by inversion Hrun; subst.
  - destruct (getattr σ target x); [by eapply IH|].
    destruct (imp (target ++ [x]) σ) as [o σ1] eqn:Himp.
    destruct o as [|e tb1|]; [| |done].
    + eapply IH; [|exact Hrun|]; [by eapply imp_keeps|by eapply imp_bound].
    + destruct e as [why| | |]; try done.
      destruct why as [m0| |]; try done.
      destruct (decide (m0 = target ++ [x])) as [->|]; [|done].
      apply imp_same in Himp as ->; [by eapply IH|].
      intros p Hp. by apply parent_snoc_inv in Hp as ->.
Qed.

Lemma import_from_bound (self target : list string) (names : list string)
    (σ σ' : modules) (r : outcome) (loading : list string -> Prop) :
  import_from self target names σ = (r, σ') ->
  submodules_bound c loading σ -> submodules_bound c loading σ'.
Proof.
  revert σ. induction names as [|x rest IH]; intros σ Hrun Hb;
    simpl in Hrun.
  - by inversion Hrun; subst.
  - destruct (getattr σ target x) as [v|].
    { eapply IH; [done|]. by apply submodules_bound_setattr. }
    destruct (σ !! (target ++ [x])); [|by inversion Hrun; subst].
    eapply IH; [done|]. by apply submodules_bound_setattr.
Qed.

Lemma exec_stmt_fresh (self : list string) (s : stmt) (m : list string)
    (σ σ' : modules) (tb : list (list string * nat)) :
  exec_stmt imp fs self s σ =
    (Raised (ImportError (ModuleNotFound m)) tb, σ') ->
  σ !! m = None.
Proof.
  intros Hrun.
  destruct s as [e|mn|level mn names|x e|e|f b]; simpl in Hrun.
  - destruct (eval σ self e) as [v|z] eqn:He; [done|].
    inversion Hrun; subst. by apply eval_not_import in He.
  - destruct (imp mn σ) as [[|e tb1|] σ1] eqn:Himp; try done.
    inversion Hrun; subst. by eapply imp_fresh.
  - destruct (resolve fs self level mn) as [target|]; [|done].
    destruct (imp target σ) as [[|e tb1|] σ1] eqn:Himp; try done.
    + assert (Hk : σ1 !! m = None -> σ !! m = None).
      { apply lookup_None_keeps. by eapply imp_keeps. }
      destruct (if is_pkg fs target then _ else _) as [[|e tb2|] σ2] eqn:Hfl;
        try done.
      * exfalso. clear Hfl Hk Himp.
        revert σ2 Hrun. induction names as [|y rest IHn]; intros σ2 Hrun;
          simpl in Hrun; [done|].
        destruct (getattr σ2 target y); [by eapply IHn|].
        destruct (σ2 !! (target ++ [y])); [by eapply IHn|done].
      * inversion Hrun; subst. apply Hk.
        destruct (is_pkg fs target); [|done].
        by eapply handle_fromlist_fresh.
    + inversion Hrun; subst. by eapply imp_fresh.
  - destruct (eval σ self e) as [v|z] eqn:He; [done|].
    inversion Hrun; subst. by apply eval_not_import in He.
  - destruct (eval σ self e) as [v|z] eqn:He.
    + by destruct (truthy v).
    + inversion Hrun; subst. by apply eval_not_import in He.
  - done.
Qed.

Lemma exec_body_fresh (self : list string) (i : nat) (body : list stmt)
    (m : list string) (σ σ' : modules) (tb : list (list string * nat)) :
  exec_body imp fs self i body σ =
    (Raised (ImportError (ModuleNotFound m)) tb, σ') ->
  σ !! m = None.
Proof.
  revert i σ. induction body as [|s rest IH]; intros i σ Hrun;
    simpl in Hrun; [done|].
  destruct (exec_stmt imp fs self s σ) as [[|e tb1|] σ1] eqn:Hs; [| |done].
  - eapply lookup_None_keeps; [|by eapply IH].
    eapply exec_stmt_keeps; [|exact Hs]. exact imp_keeps.
  - inversion Hrun; subst. by eapply exec_stmt_fresh.
Qed.

Lemma exec_stmt_bound (self : list string) (s : stmt) (σ σ' : modules)
    (loading : list string -> Prop) :
  exec_stmt imp fs self s σ = (Done, σ') ->
  submodules_bound c loading σ -> submodules_bound c loading σ'.
Proof.
  intros Hrun Hb.
  destruct s as [e|mn|level mn names|x e|e|f b]; simpl in Hrun.
  - destruct (eval σ self e); by inversion Hrun; subst.
  - destruct (imp mn σ) as [[|e tb1|] σ1] eqn:Himp; try done.
    inversion Hrun; subst.
    assert (submodules_bound c loading σ1) by (by eapply imp_bound).
    destruct mn; [done|]. by apply submodules_bound_setattr.
  - destruct (resolve fs self level mn) as [target|]; [|done].
    destruct (imp target σ) as [[|e tb1|] σ1] eqn:Himp; try done.
    assert (Hb1 : submodules_bound c loading σ1) by (by eapply imp_bound).
    destruct (if is_pkg fs target then _ else _) as [[|e tb2|] σ2] eqn:Hfl;
      try done.
    eapply import_from_bound; [exact Hrun|].
    destruct (is_pkg fs target).
    + eapply handle_fromlist_bound; [|exact Hfl|exact Hb1].
      by eapply imp_loaded.
    + by inversion Hfl; subst.
  - destruct (eval σ self e); inversion Hrun; subst.
    by apply submodules_bound_setattr.
  - destruct (eval σ self e) as [v|]; [|done].
    destruct (truthy v); by inversion Hrun; subst.
  - inversion Hrun; subst. by apply submodules_bound_setattr.
Qed.

Lemma exec_body_bound (self : list string) (i : nat) (body : list stmt)
    (σ σ' : modules) (loading : list string -> Prop) :
  exec_body imp fs self i body σ = (Done, σ') ->
  submodules_bound c loading σ -> submodules_bound c loading σ'.
Proof.
  revert i σ. induction body as [|s rest IH]; intros i σ Hrun Hb;
    simpl in Hrun.
  - by inversion Hrun; subst.
  - destruct (exec_stmt imp fs self s σ) as [[|e tb1|] σ1] eqn:Hs;
      [|done..].
    eapply IH; [exact Hrun|]. by eapply exec_stmt_bound.
Qed.
End with_import_invariants.

(** [from target import names] touches the importing namespace only, and
    there the imported names only. *)
Lemma import_from_frame (self target : list string) (names : list string)
    (σ σ' : modules) (r : outcome) (m : list string) (a : string) :
  import_from self target names σ = (r, σ') ->
  m ≠ self \/ a ∉ names ->
  getattr σ' m a = getattr σ m a.
Proof.
  revert σ. induction names as [|x rest IH]; intros σ Hrun Hor;
    simpl in Hrun.
  - by inversion Hrun; subst.
  - assert (Hstep : forall v : value,
              getattr (setattr self x v σ) m a = getattr σ m a).
    { intros v. destruct Hor as [Hm|Ha].
      - by apply getattr_setattr_ne.
      - apply getattr_setattr_other. intros ->. apply Ha. by left. }
    assert (Hrest : m ≠ self \/ a ∉ rest).
    { destruct Hor as [Hm|Ha]; [by left|right].
      intros Hin. apply Ha. by right. }
    destruct (getattr σ target x) as [v|].
    { by rewrite (IH _ Hrun Hrest). }
    destruct (σ !! (target ++ [x])); [|by inversion Hrun; subst].
    by rewrite (IH _ Hrun Hrest).
Qed.

Lemma import_from_lookup (self target : list string) (names : list string)
    (σ σ' : modules) (r : outcome) (m : list string) :
  import_from self target names σ = (r, σ') ->
  is_Some (σ' !! m) <-> is_Some (σ !! m).
Proof.
  revert σ. induction names as [|x rest IH]; intros σ Hrun; simpl in Hrun.
  - by inversion Hrun; subst.
  - destruct (getattr σ target x) as [v|].
    { by rewrite (IH _ Hrun), setattr_keeps. }
    destruct (σ !! (target ++ [x])); [|by inversion Hrun; subst].
    by rewrite (IH _ Hrun), setattr_keeps.
Qed.

(** Where every submodule of the target in [sys.modules] is an attribute
    of the target, a successful [from target import names] has found
    each name on the target itself, and bound it to that object. *)
Lemma import_from_binds (self target : list string) (names : list string)
    (σ σ' : modules) :
  self ≠ target -> is_Some (σ !! self) -> NoDup names ->
  submodules_bound target (fun _ => False) σ ->
  import_from self target names σ = (Done, σ') ->
  Forall (fun x => is_Some (getattr σ' target x) /\
                   getattr σ' self x = getattr σ' target x) names.
Proof.
  intros Hne. revert σ. induction names as [|x rest IH];
    intros σ Hself Hnd Hb Hrun; [constructor|].
  apply NoDup_cons in Hnd as [Hx Hnd].
  pose proof Hrun as Hrun0. simpl in Hrun.
  destruct (getattr σ target x) as [v|] eqn:Hv.
  - constructor.
    + rewrite (import_from_frame _ _ _ _ _ _ target x Hrun0)
        by (left; by intros ->).
      assert (Hselfx : getattr σ' self x = Some v).
      { rewrite (import_from_frame _ _ _ _ _ _ self x Hrun) by (by right).
        by apply getattr_setattr_eq. }
      rewrite Hselfx, Hv. eauto.
    + eapply IH; [|done| |exact Hrun].
      * by apply setattr_keeps.
      * by apply submodules_bound_setattr.
  - destruct (σ !! (target ++ [x])) eqn:Hsub; [|done].
    destruct (Hb x) as [[]|[w Hw]]; [eauto|congruence].
Qed.


(** A search that fails is for a module [sys.modules] did not hold when
    the import started. *)
Lemma import_module_fresh (fuel : nat) (fs : FS) (name m : list string)
    (σ σ' : modules) (tb : list (list string * nat)) :
  import_module fuel fs name σ =
    (Raised (ImportError (ModuleNotFound m)) tb, σ') ->
  σ !! m = None.
Proof.
  revert name m σ σ' tb.
  induction fuel as [|k IH]; intros name m σ σ' tb Hrun.
  - simpl in Hrun. by destruct (σ !! name).
  - rewrite import_module_unfold in Hrun.
    destruct (σ !! name) eqn:Hname; [done|].
    destruct (match parent name with
              | Some p => import_module k fs p σ
              | None => (Done, σ)
              end) as [o σ1] eqn:Hparent.
    assert (Hk : σ1 !! m = None -> σ !! m = None).
    { apply lookup_None_keeps. intros Hm.
      destruct (parent name); [by eapply import_module_keeps|].
      by inversion Hparent; subst. }
    destruct o as [|e tb1|]; [| |done].
    + destruct (σ1 !! name) eqn:Hname1; [done|].
      destruct (match parent name with
                | Some p => negb (is_pkg fs p)
                | None => false
                end); [by inversion Hrun; subst|].
      destruct (fs !! name) as [f|]; [|by inversion Hrun; subst].
      destruct (exec_body _ _ _ _ _ _) as [[|e tb2|] σ2] eqn:Hbody;
        [done| |done].
      inversion Hrun; subst. apply Hk.
      apply exec_body_fresh in Hbody.
      * rewrite lookup_insert_None in Hbody. by destruct Hbody.
      * intros. by eapply import_module_keeps.
      * intros. by eapply IH.
    + inversion Hrun; subst.
      destruct (parent name); [by eapply IH|done].
Qed.

(** An import that fails at the search for the module itself, its parent
    being loaded, leaves [sys.modules] as it was. *)
Lemma import_module_same (fuel : nat) (fs : FS) (name : list string)
    (σ σ' : modules) (tb : list (list string * nat)) :
  (forall p, parent name = Some p -> is_Some (σ !! p)) ->
  import_module fuel fs name σ =
    (Raised (ImportError (ModuleNotFound name)) tb, σ') ->
  σ' = σ.
Proof.
  intros Hparent Hrun. destruct fuel as [|k].
  - simpl in Hrun. by destruct (σ !! name).
  - rewrite import_module_unfold in Hrun.
    destruct (σ !! name) eqn:Hname; [done|].
    assert (Hp : match parent name with
                 | Some p => import_module k fs p σ
                 | None => (Done, σ)
                 end = (Done, σ)).
    { destruct (parent name) as [p|]; [|done].
      apply import_cached. by apply Hparent. }
    rewrite Hp, Hname in Hrun.
    destruct (match parent name with
              | Some p => negb (is_pkg fs p)
              | None => false
              end); [by inversion Hrun|].
    destruct (fs !! name) as [f|]; [|by inversion Hrun].
    destruct (exec_body _ _ _ _ _ _) as [[|e tb2|] σ2] eqn:Hbody;
      [done| |done].
    inversion Hrun; subst. exfalso.
    apply exec_body_fresh in Hbody.
    + by rewrite lookup_insert_eq in Hbody.
    + intros. by eapply import_module_keeps.
    + intros. by eapply import_module_fresh.
Qed.

Lemma getattr_bind_child (name c : list string) (x : string) (σ : modules) :
  is_Some (getattr σ c x) -> is_Some (getattr (bind_child name σ) c x).
Proof.
  intros [w Hw]. unfold bind_child.
  destruct (parent name) as [p|]; [|eauto].
  destruct (last name) as [y|]; [|eauto].
  destruct (decide (y = x)) as [->|Hne].
  - destruct (decide (p = c)) as [->|Hp].
    + rewrite getattr_setattr_eq; [eauto|].
      unfold getattr in Hw. destruct (σ !! c); [eauto|done].
    + rewrite getattr_setattr_ne by done. eauto.
  - rewrite getattr_setattr_other by done. eauto.
Qed.

(** An import that completes keeps every submodule of [c] bound in
    [c]. *)
Lemma import_module_bound (fuel : nat) (fs : FS) (c : list string)
    (name : list string) (σ σ' : modules) (loading : list string -> Prop) :
  c ≠ [] ->
  import_module fuel fs name σ = (Done, σ') ->
  submodules_bound c loading σ -> submodules_bound c loading σ'.
Proof.
  intros Hc. revert name σ σ' loading.
  induction fuel as [|k IH]; intros name σ σ' loading Hrun Hb.
  - simpl in Hrun. destruct (σ !! name); by inversion Hrun; subst.
  - rewrite import_module_unfold in Hrun.
    destruct (σ !! name) eqn:Hname; [by inversion Hrun; subst|].
    destruct (match parent name with
              | Some p => import_module k fs p σ
              | None => (Done, σ)
              end) as [[|e tb|] σ1] eqn:Hparent; [|done..].
    assert (Hb1 : submodules_bound c loading σ1).
    { destruct (parent name); [by eapply IH|by inversion Hparent; subst]. }
    assert (Hloaded : forall p, parent name = Some p -> is_Some (σ1 !! p)).
    { intros p Hp. rewrite Hp in Hparent.
      by eapply import_module_loaded. }
    destruct (σ1 !! name) eqn:Hname1; [by inversion Hrun; subst|].
    destruct (match parent name with
              | Some p => negb (is_pkg fs p)
              | None => false
              end); [done|].
    destruct (fs !! name) as [f|]; [|done].
    destruct (exec_body _ _ _ _ _ _) as [[|e tb|] σ2] eqn:Hbody; [|done..].
    inversion Hrun; subst σ'. clear Hrun.
    assert (Hkeeps2 : forall m, is_Some (σ1 !! m) -> is_Some (σ2 !! m)).
    { intros m Hm. eapply exec_body_keeps; [|exact Hbody|].
      - intros. by eapply import_module_keeps.
      - apply lookup_insert_is_Some'. by right. }
    assert (Hb2 : submodules_bound c
                    (fun n => loading n \/ n = name) σ2).
    { eapply (exec_body_bound (import_module k fs) fs c); [..|exact Hbody|].
      - intros. by eapply import_module_keeps.
      - intros. by eapply import_module_loaded.
      - intros. by eapply import_module_same.
      - intros. by eapply IH.
      - intros x Hx. apply lookup_insert_is_Some in Hx as [Hx|[Hne Hx]].
        + left. by right.
        + destruct (Hb1 x Hx) as [?|[w Hw]]; [left; by left|right].
          unfold getattr in *. rewrite lookup_insert_ne; [eauto|].
          intros <-. by rewrite Hname1 in Hw. }
    intros x Hx. apply bind_child_keeps in Hx.
    destruct (Hb2 x Hx) as [[?|Hn]|Hattr]; [by left| |].
    + right. subst name. unfold bind_child.
      rewrite parent_snoc, last_snoc by done.
      apply mk_is_Some with (VModule (c ++ [x])).
      apply getattr_setattr_eq, Hkeeps2, Hloaded. by apply parent_snoc.
    + right. by apply getattr_bind_child.
Qed.

Lemma submodules_bound_insert (c name : list string) (ns : gmap string value)
    (loading : list string -> Prop) (σ : modules) :
  name ≠ c -> (forall x, name ≠ c ++ [x]) ->
  submodules_bound c loading σ ->
  submodules_bound c loading (<[name:=ns]> σ).
Proof.
  intros Hc Hsub Hb x Hx.
  rewrite lookup_insert_ne in Hx by apply Hsub.
  destruct (Hb x Hx) as [?|Hattr]; [by left|right].
  unfold getattr. by rewrite lookup_insert_ne.
Qed.

(** The import of the package, from a [sys.modules] that does not hold
    it, in terms of the import of [core] it starts. *)
Lemma import_package_unfold (k : nat) (fs : FS) (σ : modules) :
  fs !! pyvtschooldata = Some init_file ->
  σ !! pyvtschooldata = None ->
  import_module (S k) fs pyvtschooldata σ =
    match import_module k fs core (<[pyvtschooldata:=∅]> σ) with
    | (Done, σ1) =>
        match (if is_pkg fs core
               then handle_fromlist (import_module k fs) core core_names σ1
               else (Done, σ1)) with
        | (Done, σ2) =>
            match import_from pyvtschooldata core core_names σ2 with
            | (Done, σ3) =>
                (Done,
                 setattr pyvtschooldata "__all__"
                   (VList (VStr <$> core_names))
                   (setattr pyvtschooldata "__version__" (VStr "0.1.0") σ3))
            | (Raised e tb, σ3) =>
                (Raised e ((pyvtschooldata, 1) :: tb),
                 delete pyvtschooldata σ3)
            | (OutOfFuel, σ3) => (OutOfFuel, delete pyvtschooldata σ3)
            end
        | (Raised e tb, σ2) =>
            (Raised e ((pyvtschooldata, 1) :: tb), delete pyvtschooldata σ2)
        | (OutOfFuel, σ2) => (OutOfFuel, delete pyvtschooldata σ2)
        end
    | (Raised e tb, σ1) =>
        (Raised e ((pyvtschooldata, 1) :: tb), delete pyvtschooldata σ1)
    | (OutOfFuel, σ1) => (OutOfFuel, delete pyvtschooldata σ1)
    end.
Proof.
  intros Hinit Hfresh.
  rewrite import_module_unfold, Hfresh.
  cbn [parent pyvtschooldata]. fold pyvtschooldata. rewrite Hfresh, Hinit.
  cbn [body init_file init_module exec_body exec_stmt eval].
  rewrite (resolve_core fs Hinit).
  destruct (import_module k fs core _) as [[|e tb|] σ1]; [|done..].
  fold core_names.
  destruct (if is_pkg fs core then _ else _) as [[|e tb|] σ2]; [|done..].
  destruct (import_from _ _ _ σ2) as [[|e tb|] σ3]; done.
Qed.

Lemma core_names_NoDup : NoDup core_names.
Proof. apply (bool_decide_unpack (NoDup core_names)). by vm_compute. Qed.

Lemma core_names_not_dunder (x : string) :
  x ∈ core_names -> "__all__" ≠ x /\ "__version__" ≠ x.
Proof.
  unfold core_names. intros Hin.
  repeat (apply elem_of_cons in Hin as [->|Hin]); [done..|].
  by apply elem_of_nil in Hin.
Qed.

Lemma core_snoc_ne_pkg (x : string) : pyvtschooldata ≠ core ++ [x].
Proof. discriminate. Qed.

(** The namespace of the package after its import. *)
Lemma package_namespace (fuel : nat) (fs : FS)
    (σ σ' : modules) :
  fs !! pyvtschooldata = Some init_file ->
  σ !! pyvtschooldata = None ->
  submodules_bound core (fun _ => False) σ ->
  import_module fuel fs pyvtschooldata σ = (Done, σ') ->
  getattr σ' pyvtschooldata "__version__" = Some (VStr "0.1.0") /\
  getattr σ' pyvtschooldata "__all__" = Some (VList (VStr <$> core_names)) /\
  Forall (fun x => is_Some (getattr σ' core x) /\
                   getattr σ' pyvtschooldata x = getattr σ' core x)
         core_names.
Proof.
  intros Hinit Hfresh Hb Hrun.
  destruct fuel as [|k]; [simpl in Hrun; by rewrite Hfresh in Hrun|].
  rewrite import_package_unfold in Hrun by done.
  destruct (import_module k fs core _) as [[|e tb|] σ1] eqn:Hcore;
    [|done..].
  assert (H1 : is_Some (σ1 !! pyvtschooldata)).
  { eapply import_module_keeps; [exact Hcore|].
    rewrite lookup_insert_eq. eauto. }
  assert (Hb1 : submodules_bound core (fun _ => False) σ1).
  { eapply import_module_bound; [done|exact Hcore|].
    apply submodules_bound_insert;
      [exact pkg_ne_core|exact core_snoc_ne_pkg|done]. }
  destruct (if is_pkg fs core then _ else _) as [[|e tb|] σ2] eqn:Hfl;
    [|done..].
  assert (H2 : is_Some (σ2 !! pyvtschooldata) /\
               submodules_bound core (fun _ => False) σ2).
  { destruct (is_pkg fs core); [|by inversion Hfl; subst].
    split.
    - eapply handle_fromlist_keeps; [|exact Hfl|exact H1].
      intros. by eapply import_module_keeps.
    - eapply (handle_fromlist_bound (import_module k fs) core);
        [..|exact Hfl|exact Hb1].
      + intros. by eapply import_module_keeps.
      + intros. by eapply import_module_same.
      + intros. by eapply import_module_bound.
      + by eapply import_module_loaded. }
  destruct H2 as [H2 Hb2].
  destruct (import_from _ _ _ σ2) as [[|e tb|] σ3] eqn:Hfrom; [|done..].
  assert (H3 : is_Some (σ3 !! pyvtschooldata))
    by (by eapply import_from_keeps).
  apply import_from_binds in Hfrom;
    [|exact pkg_ne_core|done|exact core_names_NoDup|done].
  inversion Hrun; subst σ'. clear Hrun. split; [|split].
  - rewrite getattr_setattr_other by done. by apply getattr_setattr_eq.
  - apply getattr_setattr_eq. by apply setattr_keeps.
  - rewrite Forall_forall in Hfrom |- *. intros x Hin.
    destruct (Hfrom x Hin) as [Hx Hsame].
    rewrite !(getattr_setattr_ne _ pyvtschooldata core)
      by exact pkg_ne_core.
    split; [done|]. rewrite <- Hsame.
    destruct (core_names_not_dunder x Hin) as [Hall Hversion].
    by rewrite !getattr_setattr_other by done.
Qed.

(** X1: after a successful import, from a [sys.modules] that did not
    hold the package and in which every submodule of [core] is an
    attribute of [core], the package has [__version__ = 0.1.0], its
    [__all__] is the list of the four names, and each of the four names
    is an attribute of [core] and bound in the package to the same
    object. *)
Theorem package_namespace_after_import (fuel : nat) (fs : FS)
    (σ σ' : modules) :
  fs !! pyvtschooldata = Some init_file ->
  σ !! pyvtschooldata = None ->
  submodules_bound core (fun _ => False) σ ->
  import_module fuel fs pyvtschooldata σ = (Done, σ') ->
  getattr σ' pyvtschooldata "__version__" = Some (VStr "0.1.0") /\
  getattr σ' pyvtschooldata "__all__" = Some (VList (VStr <$> core_names)) /\
  Forall (fun x => is_Some (getattr σ' core x) /\
                   getattr σ' pyvtschooldata x = getattr σ' core x)
         core_names.
Proof. apply package_namespace. Qed.

(** X2: an exception that leaves the loading of [core] leaves the import
    of the package unchanged, with the [from .core import] on top of its
    traceback, and the package is not kept in [sys.modules]. *)
Theorem import_propagates_core_failure (k : nat) (fs : FS)
    (σ σ1 : modules) (e : exn) (tb : list (list string * nat)) :
  fs !! pyvtschooldata = Some init_file ->
  σ !! pyvtschooldata = None ->
  import_module k fs core (<[pyvtschooldata:=∅]> σ) = (Raised e tb, σ1) ->
  import_module (S k) fs pyvtschooldata σ =
    (Raised e ((pyvtschooldata, 1) :: tb), delete pyvtschooldata σ1) /\
  delete pyvtschooldata σ1 !! pyvtschooldata = None.
Proof.
  intros Hinit Hfresh Hcore.
  rewrite import_package_unfold, Hcore by done.
  split; [done|]. apply lookup_delete_eq.
Qed.

Lemma import_from_missing (self target : list string)
    (before after : list string) (x : string) (σ : modules) :
  Forall (fun y => is_Some (getattr σ target y)) before ->
  getattr σ target x = None ->
  σ !! (target ++ [x]) = None ->
  self ≠ target ->
  (forall y, self ≠ target ++ [y]) ->
  exists σ' : modules,
    import_from self target (before ++ x :: after) σ =
      (Raised (ImportError (CannotImportName x target)) [], σ') /\
    delete self σ' = delete self σ.
Proof.
  intros Hbefore Hx Hsub Hne Hne'. revert σ Hbefore Hx Hsub.
  induction before as [|y before IH]; intros σ Hbefore Hx Hsub; simpl.
  - rewrite Hx, Hsub. eauto.
  - apply Forall_cons in Hbefore as [[v Hv] Hbefore]. rewrite Hv.
    destruct (IH (setattr self y v σ)) as (σ' & Hrun & Hdel).
    + eapply Forall_impl; [exact Hbefore|]. cbn beta. intros z Hz.
      by rewrite getattr_setattr_ne.
    + by rewrite getattr_setattr_ne.
    + unfold setattr. by rewrite lookup_alter_ne.
    + exists σ'. split; [done|]. rewrite Hdel.
      unfold setattr. apply delete_alter_eq.
Qed.

(** X3: when a plain module [core] loads but lacks one of the four
    names, and [sys.modules] holds no module of that name below [core]
    either, the import raises [ImportError] (cannot import name) for the
    first missing one in the order of the import statement, at statement
    1 of the initialiser, and the package is not kept in [sys.modules]. *)
Theorem import_reports_first_missing_name (k : nat) (fs : FS)
    (σ σ1 : modules) (before after : list string) (x : string) :
  fs !! pyvtschooldata = Some init_file ->
  σ !! pyvtschooldata = None ->
  import_module k fs core (<[pyvtschooldata:=∅]> σ) = (Done, σ1) ->
  is_pkg fs core = false ->
  core_names = before ++ x :: after ->
  Forall (fun y => is_Some (getattr σ1 core y)) before ->
  getattr σ1 core x = None ->
  σ1 !! (core ++ [x]) = None ->
  import_module (S k) fs pyvtschooldata σ =
    (Raised (ImportError (CannotImportName x core)) [(pyvtschooldata, 1)],
     delete pyvtschooldata σ1).
Proof.
  intros Hinit Hfresh Hcore Hplain Hnames Hbefore Hx Hsub.
  rewrite import_package_unfold, Hcore, Hplain, Hnames by done.
  destruct (import_from_missing pyvtschooldata core before after x σ1)
    as (σ' & -> & ->);
    [done|done|done|exact pkg_ne_core|exact core_snoc_ne_pkg|done].
Qed.

(** Without a [core] in the file system the import fails and leaves
    [sys.modules] as it was. *)
Lemma import_without_core_any (k : nat) (fs : FS) (σ : modules) :
  fs !! pyvtschooldata = Some init_file ->
  fs !! core = None ->
  σ !! pyvtschooldata = None ->
  σ !! core = None ->
  import_module (S (S k)) fs pyvtschooldata σ =
    (Raised (ImportError (ModuleNotFound core)) [(pyvtschooldata, 1)], σ).
Proof.
  intros Hinit Hnocore Hfresh Hfresh'.
  rewrite import_package_unfold by done.
  rewrite import_module_unfold.
  rewrite lookup_insert_ne by exact pkg_ne_core. rewrite Hfresh'.
  change (parent core) with (Some pyvtschooldata). cbn match.
  rewrite import_cached by (rewrite lookup_insert_eq; eauto).
  rewrite lookup_insert_ne by exact pkg_ne_core. rewrite Hfresh'.
  unfold is_pkg. rewrite Hinit, Hnocore. simpl.
  by rewrite delete_insert_eq, delete_id.
Qed.

(** C10: the import of the package succeeds only if the file system has
    a module [pyvtschooldata.core] and that module, once loaded, has the
    four names; in the repository's own file system there is no such
    module, and the import raises [ImportError] (no module named
    [pyvtschooldata.core]) at statement 1 of the initialiser, the
    [from .core import ...], leaving [sys.modules] empty. *)
Theorem import_needs_core :
  (forall (fuel : nat) (fs : gmap (list string) module_file) (σ' : gmap (list string) (gmap string value)),
      fs !! pyvtschooldata = Some init_file ->
      import_module fuel fs pyvtschooldata ∅ = (Done, σ') ->
      is_Some (fs !! core) /\
      Forall (fun x => is_Some (getattr σ' core x)) core_names) /\
  (forall k,
      import_module (S (S k)) repository_fs pyvtschooldata ∅ =
        (Raised (ImportError (ModuleNotFound core)) [(pyvtschooldata, 1)],
         ∅)).
Proof.
  split.
  - intros fuel fs σ' Hinit Hrun.
    destruct fuel as [|k]; [done|]. split.
    + rewrite import_package_unfold in Hrun by done.
      destruct (import_module k fs core _) as [[|e tb|] σ1] eqn:Hcore.
      * by eapply import_core_found.
      * done.
      * done.
    + eapply Forall_impl.
      * eapply (package_namespace (S k) fs ∅ σ');
          [done|done| |done].
        intros x Hx. rewrite lookup_empty in Hx. by destruct Hx.
      * cbn beta. by intros x [Hx _].
  - intros k. apply import_without_core.
    + exact repository_has_init.
    + exact repository_has_no_core.
Qed.

(** The theorem at a file system with a [core] that defines the four
    functions: the import succeeds there. *)
Lemma import_needs_core_witness :
  is_Some (stub_fs !! core) /\
  Forall (fun x => is_Some (getattr (import_module 3 stub_fs pyvtschooldata ∅).2 core x))
         core_names.
Proof.
  assert (Hdone : (import_module 3 stub_fs pyvtschooldata ∅).1 = Done)
    by (vm_compute; reflexivity).
  apply (proj1 import_needs_core 3 stub_fs).
  - vm_compute. reflexivity.
  - destruct (import_module 3 stub_fs pyvtschooldata ∅) as [o σ].
    simpl in Hdone. rewrite Hdone. reflexivity.
Defined.
End loader_facts.

(** ** The verdicts of the tests *)

Section pytest_facts.
Import Py Loader Pytest.

Ltac decide_list :=
  match goal with
  | |- ?P => apply (bool_decide_unpack P); by vm_compute
  end.

Lemma lookup_local (σ : modules) (globals : list string)
    (locals : gmap string value) (x : string) (v : value) :
  lookup_name σ globals (<[x:=v]> locals) [x] x = inl v.
Proof.
  unfold lookup_name. rewrite bool_decide_true by (by left).
  by rewrite lookup_insert_eq.
Qed.

Lemma lookup_builtin (σ : modules) (locals : gmap string value)
    (local_names : list string) (x : string) :
  builtins_visible σ -> x ∈ builtins -> x ∉ local_names ->
  lookup_name σ test_pyvtschooldata locals local_names x = inl (VBuiltin x).
Proof.
  intros Hvis Hx Hlocal. unfold lookup_name.
  rewrite bool_decide_false by done.
  unfold builtins_visible in Hvis. rewrite Forall_forall in Hvis.
  rewrite (Hvis x Hx). by rewrite bool_decide_true.
Qed.

Lemma run_test_import_package (fuel : nat) (fs : FS) (σ : modules) :
  run_test fuel fs (body_of test_import_package) σ =
    (import_verdict (import_module fuel fs pyvtschooldata σ).1 Passed,
     (import_module fuel fs pyvtschooldata σ).2).
Proof.
  unfold run_test. cbn [body_of test_import_package bound_names binds map concat app take].
  cbn [run_body run_stmt eval_obj].
  fold pyvtschooldata.
  destruct (import_module fuel fs pyvtschooldata σ) as [[|e tb|] σ']; [|done..].
  cbn [run_body run_stmt eval_obj pkg].
  rewrite lookup_local. done.
Qed.

(** X4: [test_import_package] passes exactly when the import of the
    package completes; its assertion cannot fail, and an exception of
    the import fails the test at the import statement. *)
Theorem test_import_package_verdict (fuel : nat) (fs : FS) (σ : modules) :
  run_test fuel fs (body_of test_import_package) σ =
    (import_verdict (import_module fuel fs pyvtschooldata σ).1 Passed,
     (import_module fuel fs pyvtschooldata σ).2).
Proof. apply run_test_import_package. Qed.

(** A test that asserts [hasattr] and [callable] of an attribute of the
    package, once the import statement has completed. *)
Ltac run_has_callable Himp Hvis attr :=
  unfold run_test;
  cbn [body_of test_has_fetch_enr test_has_get_available_years
       test_has_version bound_names binds map concat app take];
  cbn [run_body run_stmt eval_obj];
  fold pyvtschooldata; rewrite Himp;
  cbn [run_body run_stmt eval_obj pkg];
  rewrite !lookup_local;
  rewrite !lookup_builtin by (done || decide_list);
  cbn [call_builtin String.eqb Ascii.eqb Bool.eqb andb truth];
  destruct attr as [f|] eqn:Hf;
  [ rewrite bool_decide_true by eauto;
    cbn [run_body run_stmt eval_obj pkg];
    rewrite !lookup_local;
    rewrite !lookup_builtin by (done || decide_list);
    rewrite Hf;
    cbn [call_builtin String.eqb Ascii.eqb Bool.eqb andb truth]
  | rewrite bool_decide_false by (by intros [? ?]); done ].

Lemma run_test_has_function (fuel : nat) (fs : FS) (σ σ' : modules) :
  import_module fuel fs pyvtschooldata σ = (Done, σ') ->
  builtins_visible σ' ->
  run_test fuel fs (body_of test_has_fetch_enr) σ =
    (callable_verdict (getattr σ' pyvtschooldata "fetch_enr"), σ') /\
  run_test fuel fs (body_of test_has_get_available_years) σ =
    (callable_verdict (getattr σ' pyvtschooldata "get_available_years"),
     σ').
Proof.
  intros Himp Hvis. split.
  - run_has_callable Himp Hvis (getattr σ' pyvtschooldata "fetch_enr").
    unfold callable_verdict. by destruct (is_callable (OVal f)).
  - run_has_callable Himp Hvis
      (getattr σ' pyvtschooldata "get_available_years").
    unfold callable_verdict. by destruct (is_callable (OVal f)).
Qed.

(** X5: once the import has completed, [test_has_fetch_enr] and
    [test_has_get_available_years] fail at their first assertion when
    the package lacks the attribute, fail at their second when the
    attribute is not callable, and pass otherwise; neither changes
    [sys.modules] further. *)
Theorem test_has_function_verdicts (fuel : nat) (fs : FS) (σ σ' : modules) :
  import_module fuel fs pyvtschooldata σ = (Done, σ') ->
  builtins_visible σ' ->
  run_test fuel fs (body_of test_has_fetch_enr) σ =
    (callable_verdict (getattr σ' pyvtschooldata "fetch_enr"), σ') /\
  run_test fuel fs (body_of test_has_get_available_years) σ =
    (callable_verdict (getattr σ' pyvtschooldata "get_available_years"),
     σ').
Proof. apply run_test_has_function. Qed.

Lemma run_test_has_version (fuel : nat) (fs : FS) (σ σ' : modules) :
  import_module fuel fs pyvtschooldata σ = (Done, σ') ->
  builtins_visible σ' ->
  run_test fuel fs (body_of test_has_version) σ =
    (str_verdict (getattr σ' pyvtschooldata "__version__"), σ').
Proof.
  intros Himp Hvis.
  run_has_callable Himp Hvis (getattr σ' pyvtschooldata "__version__").
  unfold str_verdict. by destruct (is_str (OVal f)).
Qed.

(** X6: once the import has completed, [test_has_version] fails at its
    first assertion when the package has no [__version__], at its second
    when [__version__] is not a string, and passes otherwise. *)
Theorem test_has_version_verdict (fuel : nat) (fs : FS) (σ σ' : modules) :
  import_module fuel fs pyvtschooldata σ = (Done, σ') ->
  builtins_visible σ' ->
  run_test fuel fs (body_of test_has_version) σ =
    (str_verdict (getattr σ' pyvtschooldata "__version__"), σ').
Proof. apply run_test_has_version. Qed.

Lemma test_functions_of_file :
  test_functions test_module =
    [ ("test_import_package", body_of test_import_package);
      ("test_has_fetch_enr", body_of test_has_fetch_enr);
      ("test_has_get_available_years",
        body_of test_has_get_available_years);
      ("test_has_version", body_of test_has_version) ].
Proof. reflexivity. Qed.

(** Every test starts with the import of the package: an import that
    raises fails the test at that statement. *)
Lemma tests_fail_at_import (fuel : nat) (fs : FS) (σ σ' : modules)
    (e : exn) (tb : list (list string * nat)) :
  import_module fuel fs pyvtschooldata σ = (Raised e tb, σ') ->
  Forall (fun t : string * list stmt =>
            run_test fuel fs t.2 σ = (Failed 1 (Exception e tb), σ'))
         (test_functions test_module).
Proof.
  intros Himp. rewrite test_functions_of_file.
  repeat constructor; unfold run_test;
    cbn [snd body_of test_import_package test_has_fetch_enr
         test_has_get_available_years test_has_version
         bound_names binds map concat app take];
    cbn [run_body run_stmt eval_obj]; fold pyvtschooldata;
    by rewrite Himp.
Qed.

(** Tests that all fail at an import that leaves [sys.modules] as it
    was. *)
Lemma run_tests_all_fail (fuel : nat) (fs : FS) (σ : modules)
    (tests : list (string * list stmt)) (why : failure) :
  Forall (fun t : string * list stmt =>
            run_test fuel fs t.2 σ = (Failed 1 why, σ)) tests ->
  run_tests fuel fs tests σ =
    ((fun t : string * list stmt => (t.1, Failed 1 why)) <$> tests, σ).
Proof.
  induction 1 as [|[name body] tests Ht _ IH]; [done|].
  simpl in *. by rewrite Ht, IH.
Qed.

(** X7: in a file system with the initialiser and no [core], from a
    [sys.modules] holding neither, every test of the file fails at its
    import statement with [ImportError] (no module named
    [pyvtschooldata.core]), and [sys.modules] is left as it was. *)
Theorem suite_fails_without_core (k : nat) (fs : FS) (σ : modules) :
  fs !! pyvtschooldata = Some init_file ->
  fs !! core = None ->
  σ !! pyvtschooldata = None ->
  σ !! core = None ->
  run_suite (S (S k)) fs σ =
    ((fun t : string * list stmt =>
        (t.1, Failed 1 (Exception (ImportError (ModuleNotFound core))
                          [(pyvtschooldata, 1)]))) <$>
       test_functions test_module, σ).
Proof.
  intros Hinit Hnocore Hfresh Hfresh'. unfold run_suite.
  apply run_tests_all_fail, tests_fail_at_import.
  by apply import_without_core_any.
Qed.

(** X8: when the import of the package completes, from a [sys.modules]
    that did not hold the package and in which every submodule of [core]
    is an attribute of [core], [test_import_package] and
    [test_has_version] pass, and [test_has_fetch_enr] and
    [test_has_get_available_years] pass exactly when the object [core]
    has under that name is callable; the package is loaded once, by the
    first test. *)
Theorem suite_verdicts_after_import (fuel : nat) (fs : FS)
    (σ σ' : modules) :
  fs !! pyvtschooldata = Some init_file ->
  σ !! pyvtschooldata = None ->
  submodules_bound core (fun _ => False) σ ->
  import_module fuel fs pyvtschooldata σ = (Done, σ') ->
  builtins_visible σ' ->
  is_Some (getattr σ' core "fetch_enr") /\
  is_Some (getattr σ' core "get_available_years") /\
  run_suite fuel fs σ =
    ([ ("test_import_package", Passed);
       ("test_has_fetch_enr",
         callable_verdict (getattr σ' core "fetch_enr"));
       ("test_has_get_available_years",
         callable_verdict (getattr σ' core "get_available_years"));
       ("test_has_version", Passed) ], σ').
Proof.
  intros Hinit Hfresh Hb Himp Hvis.
  destruct (package_namespace fuel fs σ σ' Hinit Hfresh Hb Himp)
    as (Hversion & _ & Hnames).
  rewrite Forall_forall in Hnames.
  destruct (Hnames "fetch_enr") as [Hf Hf']; [decide_list|].
  destruct (Hnames "get_available_years") as [Hg Hg']; [decide_list|].
  split; [done|]. split; [done|].
  assert (Hcached : import_module fuel fs pyvtschooldata σ' = (Done, σ')).
  { apply import_cached. unfold getattr in Hversion.
    destruct (σ' !! pyvtschooldata); [eauto|done]. }
  destruct (run_test_has_function fuel fs σ' σ' Hcached Hvis)
    as [Ht2 Ht3].
  pose proof (run_test_has_version fuel fs σ' σ' Hcached Hvis) as Ht4.
  unfold run_suite. rewrite test_functions_of_file.
  cbn [run_tests].
  rewrite run_test_import_package, Himp. cbn [fst snd import_verdict].
  rewrite Ht2, Ht3, Ht4, Hf', Hg', Hversion. done.
Qed.

(** X9: the plain import of the test file imports [pytest] and defines
    the four test functions: when [pytest] imports without touching the
    test module, the module afterwards has [pytest] and each test
    function under its name, every other module is as the import of
    [pytest] left it (the package is not imported at load time), and no
    builtin is hidden. *)
Theorem collection_defines_tests (k : nat) (fs : FS) (σ σ1 : modules) :
  fs !! test_pyvtschooldata =
    Some {| is_package := false; body := test_module |} ->
  σ !! test_pyvtschooldata = None ->
  import_module k fs ["pytest"] (<[test_pyvtschooldata:=∅]> σ) =
    (Done, σ1) ->
  σ1 !! test_pyvtschooldata = Some ∅ ->
  exists σ' : modules,
    import_module (S k) fs test_pyvtschooldata σ = (Done, σ') /\
    getattr σ' test_pyvtschooldata "pytest" = Some (VModule ["pytest"]) /\
    Forall (fun t : string * list stmt =>
              getattr σ' test_pyvtschooldata t.1 =
                Some (VFunc test_pyvtschooldata t.1))
           (test_functions test_module) /\
    (forall m, m ≠ test_pyvtschooldata -> σ' !! m = σ1 !! m) /\
    builtins_visible σ'.
Proof.
  intros Hfile Hfresh Hpytest Hns.
  rewrite import_module_unfold, Hfresh.
  cbn [parent test_pyvtschooldata]. fold test_pyvtschooldata.
  rewrite Hfresh, Hfile.
  cbn [body test_module exec_body exec_stmt eval
       test_import_package test_has_fetch_enr
       test_has_get_available_years test_has_version].
  rewrite Hpytest. cbn [exec_body exec_stmt].
  eexists. split; [reflexivity|].
  unfold bind_child. cbn [parent test_pyvtschooldata].
  fold test_pyvtschooldata.
  rewrite test_functions_of_file.
  split; [|split; [|split]].
  - unfold getattr, setattr. rewrite !lookup_alter_eq, Hns. simpl.
    rewrite !lookup_insert_ne by done. apply lookup_insert_eq.
  - unfold getattr, setattr. rewrite !lookup_alter_eq, Hns. simpl.
    repeat constructor; cbn [fst];
      rewrite ?lookup_insert_ne by done; apply lookup_insert_eq.
  - intros m Hm. unfold setattr. by rewrite !lookup_alter_ne.
  - unfold builtins_visible, getattr, setattr.
    rewrite !lookup_alter_eq, Hns. simpl.
    repeat constructor; by rewrite !lookup_insert_ne, lookup_empty.
Qed.
End pytest_facts.

(** ** The theorems at small file systems *)

Section extra_examples.
Import Py Loader Pytest.

(** The test file imported from an empty [sys.modules] leaves two
    modules there, and no submodule of [core]. *)
Lemma collected_submodules_bound :
  submodules_bound core (fun _ => False) (collected 3 pytest_fs).2.
Proof.
  intros x Hx. exfalso.
  apply elem_of_dom in Hx.
  assert (Hdom : dom (collected 3 pytest_fs).2 =
                   {[ ["pytest"]; test_pyvtschooldata ]})
    by (vm_compute; reflexivity).
  rewrite Hdom in Hx.
  apply elem_of_union in Hx as [Hx | Hx];
    apply elem_of_singleton in Hx; discriminate Hx.
Qed.

Lemma package_namespace_after_import_witness :
  getattr (import_module 3 stub_fs pyvtschooldata ∅).2 pyvtschooldata
    "__version__" = Some (VStr "0.1.0") /\
  getattr (import_module 3 stub_fs pyvtschooldata ∅).2 pyvtschooldata
    "__all__" = Some (VList (VStr <$> core_names)) /\
  Forall (fun x =>
            is_Some (getattr (import_module 3 stub_fs pyvtschooldata ∅).2
                       core x) /\
            getattr (import_module 3 stub_fs pyvtschooldata ∅).2
              pyvtschooldata x =
            getattr (import_module 3 stub_fs pyvtschooldata ∅).2 core x)
         core_names.
Proof.
  assert (Hdone : (import_module 3 stub_fs pyvtschooldata ∅).1 = Done)
    by (vm_compute; reflexivity).
  apply (package_namespace_after_import 3 stub_fs ∅).
  - vm_compute. reflexivity.
  - reflexivity.
  - intros x Hx. rewrite lookup_empty in Hx. by destruct Hx.
  - destruct (import_module 3 stub_fs pyvtschooldata ∅) as [o σ].
    simpl in Hdone. rewrite Hdone. reflexivity.
Defined.

Lemma import_propagates_core_failure_witness :
  import_module 3 needs_rpy2_fs pyvtschooldata ∅ =
    (Raised (ImportError (ModuleNotFound ["rpy2"]))
       [(pyvtschooldata, 1); (core, 0)],
     delete pyvtschooldata
       (import_module 2 needs_rpy2_fs core (<[pyvtschooldata:=∅]> ∅)).2) /\
  delete pyvtschooldata
    (import_module 2 needs_rpy2_fs core (<[pyvtschooldata:=∅]> ∅)).2
    !! pyvtschooldata = None.
Proof.
  assert (Hcore :
    (import_module 2 needs_rpy2_fs core (<[pyvtschooldata:=∅]> ∅)).1 =
      Raised (ImportError (ModuleNotFound ["rpy2"])) [(core, 0)])
    by (vm_compute; reflexivity).
  apply (import_propagates_core_failure 2 needs_rpy2_fs ∅).
  - vm_compute. reflexivity.
  - reflexivity.
  - destruct (import_module 2 needs_rpy2_fs core _) as [o σ].
    simpl in Hcore. rewrite Hcore. reflexivity.
Defined.

Lemma import_reports_first_missing_name_witness :
  import_module 3 partial_fs pyvtschooldata ∅ =
    (Raised (ImportError (CannotImportName "fetch_enr_multi" core))
       [(pyvtschooldata, 1)],
     delete pyvtschooldata
       (import_module 2 partial_fs core (<[pyvtschooldata:=∅]> ∅)).2).
Proof.
  assert (Hcore :
    (import_module 2 partial_fs core (<[pyvtschooldata:=∅]> ∅)).1 = Done)
    by (vm_compute; reflexivity).
  apply (import_reports_first_missing_name 2 partial_fs ∅ _
           ["fetch_enr"] ["tidy_enr"; "get_available_years"]).
  - vm_compute. reflexivity.
  - reflexivity.
  - destruct (import_module 2 partial_fs core _) as [o σ].
    simpl in Hcore. rewrite Hcore. reflexivity.
  - vm_compute. reflexivity.
  - reflexivity.
  - repeat constructor. vm_compute. eauto.
  - vm_compute. reflexivity.
  - vm_compute. reflexivity.
Defined.

Lemma suite_fails_without_core_witness :
  run_suite 2 repository_fs ∅ =
    ((fun t : string * list stmt =>
        (t.1, Failed 1 (Exception (ImportError (ModuleNotFound core))
                          [(pyvtschooldata, 1)]))) <$>
       test_functions test_module, ∅).
Proof.
  apply (suite_fails_without_core 0 repository_fs ∅).
  - vm_compute. reflexivity.
  - vm_compute. reflexivity.
  - reflexivity.
  - reflexivity.
Defined.

Lemma test_has_function_verdicts_witness :
  run_test 3 pytest_fs (body_of test_has_fetch_enr)
    (collected 3 pytest_fs).2 =
    (callable_verdict
       (getattr (import_module 3 pytest_fs pyvtschooldata
                   (collected 3 pytest_fs).2).2
          pyvtschooldata "fetch_enr"),
     (import_module 3 pytest_fs pyvtschooldata
        (collected 3 pytest_fs).2).2) /\
  run_test 3 pytest_fs (body_of test_has_get_available_years)
    (collected 3 pytest_fs).2 =
    (callable_verdict
       (getattr (import_module 3 pytest_fs pyvtschooldata
                   (collected 3 pytest_fs).2).2
          pyvtschooldata "get_available_years"),
     (import_module 3 pytest_fs pyvtschooldata
        (collected 3 pytest_fs).2).2).
Proof.
  assert (Hdone : (import_module 3 pytest_fs pyvtschooldata
                     (collected 3 pytest_fs).2).1 = Done)
    by (vm_compute; reflexivity).
  apply (test_has_function_verdicts 3 pytest_fs).
  - destruct (import_module 3 pytest_fs pyvtschooldata _) as [o σ].
    simpl in Hdone. rewrite Hdone. reflexivity.
  - repeat constructor; vm_compute; reflexivity.
Defined.

Lemma test_has_version_verdict_witness :
  run_test 3 pytest_fs (body_of test_has_version)
    (collected 3 pytest_fs).2 =
    (str_verdict
       (getattr (import_module 3 pytest_fs pyvtschooldata
                   (collected 3 pytest_fs).2).2
          pyvtschooldata "__version__"),
     (import_module 3 pytest_fs pyvtschooldata
        (collected 3 pytest_fs).2).2).
Proof.
  assert (Hdone : (import_module 3 pytest_fs pyvtschooldata
                     (collected 3 pytest_fs).2).1 = Done)
    by (vm_compute; reflexivity).
  apply (test_has_version_verdict 3 pytest_fs).
  - destruct (import_module 3 pytest_fs pyvtschooldata _) as [o σ].
    simpl in Hdone. rewrite Hdone. reflexivity.
  - repeat constructor; vm_compute; reflexivity.
Defined.

Lemma suite_verdicts_after_import_witness :
  is_Some (getattr (import_module 3 pytest_fs pyvtschooldata
                      (collected 3 pytest_fs).2).2 core "fetch_enr") /\
  is_Some (getattr (import_module 3 pytest_fs pyvtschooldata
                      (collected 3 pytest_fs).2).2 core
             "get_available_years") /\
  run_suite 3 pytest_fs (collected 3 pytest_fs).2 =
    ([ ("test_import_package", Passed);
       ("test_has_fetch_enr",
         callable_verdict
           (getattr (import_module 3 pytest_fs pyvtschooldata
                       (collected 3 pytest_fs).2).2 core "fetch_enr"));
       ("test_has_get_available_years",
         callable_verdict
           (getattr (import_module 3 pytest_fs pyvtschooldata
                       (collected 3 pytest_fs).2).2 core
              "get_available_years"));
       ("test_has_version", Passed) ],
     (import_module 3 pytest_fs pyvtschooldata
        (collected 3 pytest_fs).2).2).
Proof.
  assert (Hdone : (import_module 3 pytest_fs pyvtschooldata
                     (collected 3 pytest_fs).2).1 = Done)
    by (vm_compute; reflexivity).
  apply (suite_verdicts_after_import 3 pytest_fs).
  - vm_compute. reflexivity.
  - vm_compute. reflexivity.
  - exact collected_submodules_bound.
  - destruct (import_module 3 pytest_fs pyvtschooldata _) as [o σ].
    simpl in Hdone. rewrite Hdone. reflexivity.
  - repeat constructor; vm_compute; reflexivity.
Defined.

Lemma collection_defines_tests_witness :
  exists σ' : modules,
    import_module 3 pytest_fs test_pyvtschooldata ∅ = (Done, σ') /\
    getattr σ' test_pyvtschooldata "pytest" = Some (VModule ["pytest"]) /\
    Forall (fun t : string * list stmt =>
              getattr σ' test_pyvtschooldata t.1 =
                Some (VFunc test_pyvtschooldata t.1))
           (test_functions test_module) /\
    (forall m, m ≠ test_pyvtschooldata ->
       σ' !! m =
       (import_module 2 pytest_fs ["pytest"]
          (<[test_pyvtschooldata:=∅]> ∅)).2 !! m) /\
    builtins_visible σ'.
Proof.
  assert (Hdone : (import_module 2 pytest_fs ["pytest"]
                     (<[test_pyvtschooldata:=∅]> ∅)).1 = Done)
    by (vm_compute; reflexivity).
  apply (collection_defines_tests 2 pytest_fs ∅).
  - vm_compute. reflexivity.
  - reflexivity.
  - destruct (import_module 2 pytest_fs ["pytest"] _) as [o σ].
    simpl in Hdone. rewrite Hdone. reflexivity.
  - vm_compute. reflexivity.
Defined.
End extra_examples.
